(** * wid_income_chart: the percentile catalog, the filter, the summary
      aggregation and the affordability lookup of [app.py]

    The development embeds the data-processing functions of [app.py]
    ([parse_percentile], [get_income_groups], [filter_data],
    [prepare_summary_data], [get_afford], and the first lines of [main])
    and states the properties of the specification over them.

    A pandas data frame is a list of rows, a Python exception is the
    [Raise] branch of a result type, Python integers are [Z], Python and
    NumPy floats are binary64 numbers ([PrimFloat.float]). *)

From Stdlib Require Import ZArith List String Ascii Bool Lia Sorted Permutation.
From Stdlib Require Import DecimalString.
From Stdlib Require Import PrimFloat SpecFloat FloatOps.
Import ListNotations.

Set Warnings "-inexact-float".

Local Open Scope string_scope.
Local Open Scope Z_scope.

(** ** The fragment of Python the script relies on *)

Module Py.

(** The exceptions the modelled code can raise. *)
Inductive exn : Type :=
| KeyError
| IndexError
| ValueError
| OverflowError
| ZeroDivisionError.

Inductive result (A : Type) : Type :=
| Ok (a : A)
| Raise (e : exn).
Arguments Ok {A} a.
Arguments Raise {A} e.

Definition bind {A B : Type} (c : result A) (k : A -> result B) : result B :=
  match c with
  | Ok a => k a
  | Raise e => Raise e
  end.

Definition fmap {A B : Type} (f : A -> B) (c : result A) : result B :=
  bind c (fun a => Ok (f a)).

(** [map(f, xs)] forced from left to right: the first exception wins. *)
Fixpoint mapM {A B : Type} (f : A -> result B) (xs : list A) : result (list B) :=
  match xs with
  | [] => Ok []
  | x :: xs' =>
      bind (f x) (fun y => bind (mapM f xs') (fun ys => Ok (y :: ys)))
  end.

(** [range(n)]. *)
Definition range (n : nat) : list Z := map Z.of_nat (seq 0 n).

(** [str(i)], which is what ["{}".format(i)] prints for an integer. *)
Definition str (i : Z) : string := NilZero.string_of_int (Z.to_int i).

(** [c in chars] for a character and a string. *)
Definition char_in (c : ascii) (chars : string) : bool :=
  existsb (Ascii.eqb c) (list_ascii_of_string chars).

(** [s.lstrip(chars)], [s.rstrip(chars)] and [s.strip(chars)]: every
    leading (trailing) character that belongs to [chars] goes. *)
Fixpoint lstrip (chars s : string) : string :=
  match s with
  | EmptyString => EmptyString
  | String c s' => if char_in c chars then lstrip chars s' else s
  end.

Fixpoint rstrip (chars s : string) : string :=
  match s with
  | EmptyString => EmptyString
  | String c s' =>
      match rstrip chars s' with
      | EmptyString => if char_in c chars then EmptyString else String c EmptyString
      | String _ _ as r => String c r
      end
  end.

Definition strip (chars s : string) : string := rstrip chars (lstrip chars s).

(** [s.split(sep)] for a separator of one character: the pieces between
    the occurrences of [sep]; there is always at least one piece. *)
Fixpoint split (sep : ascii) (s : string) : list string :=
  match s with
  | EmptyString => [EmptyString]
  | String c s' =>
      if Ascii.eqb c sep then EmptyString :: split sep s'
      else match split sep s' with
           | piece :: pieces => String c piece :: pieces
           | [] => [String c EmptyString]
           end
  end.

(** [x in xs] for a string and a list of strings. *)
Definition str_in (x : string) (xs : list string) : bool :=
  existsb (String.eqb x) xs.

(** A [dict] with string keys, in insertion order; [d[k]] raises
    [KeyError] on a missing key. *)
Definition dict (V : Type) : Type := list (string * V).

Fixpoint getitem {V : Type} (d : dict V) (k : string) : result V :=
  match d with
  | [] => Raise KeyError
  | (k', v) :: d' => if String.eqb k' k then Ok v else getitem d' k
  end.

Definition keys {V : Type} (d : dict V) : list string := map fst d.

(** [xs[0]] on a sequence. *)
Definition first {A : Type} (xs : list A) : result A :=
  match xs with
  | [] => Raise IndexError
  | x :: _ => Ok x
  end.

(** *** binary64 arithmetic *)

(** [float(i)] for an integer: the nearest binary64 number, ties to
    even; an integer that rounds past the largest finite number is an
    [OverflowError]. *)
Definition float_of_int (i : Z) : result float :=
  let f := SF2Prim (binary_normalize prec emax i 0 false) in
  if is_infinity f then Raise OverflowError else Ok f.

(** The integer [(-1)^s * floor (m * 2^e)] and what is left below it,
    compared with one half: the two readings of a finite binary64
    number that [int] and [round] need. *)
Definition floor_mag (m : positive) (e : Z) : Z :=
  if 0 <=? e then Z.pos m * 2 ^ e else Z.pos m / 2 ^ (- e).

Definition frac_vs_half (m : positive) (e : Z) : comparison :=
  if 0 <=? e then Lt else (2 * (Z.pos m mod 2 ^ (- e))) ?= 2 ^ (- e).

Definition signed (s : bool) (n : Z) : Z := if s then - n else n.

(** [int(x)] for a float: truncation towards zero. *)
Definition int_of_float (x : float) : result Z :=
  match Prim2SF x with
  | S754_zero _ => Ok 0
  | S754_infinity _ => Raise OverflowError
  | S754_nan => Raise ValueError
  | S754_finite s m e => Ok (signed s (floor_mag m e))
  end.

(** [round(x)] for a float and no digits: the nearest integer, ties to
    the even one. *)
Definition round (x : float) : result Z :=
  match Prim2SF x with
  | S754_zero _ => Ok 0
  | S754_infinity _ => Raise OverflowError
  | S754_nan => Raise ValueError
  | S754_finite s m e =>
      let q := floor_mag m e in
      let n := match frac_vs_half m e with
               | Lt => q
               | Gt => q + 1
               | Eq => if Z.even q then q else q + 1
               end in
      Ok (signed s n)
  end.

(** [i / y] for an integer [i] and a float [y]. *)
Definition truediv (i : Z) (y : float) : result float :=
  bind (float_of_int i) (fun x =>
    if PrimFloat.eqb y 0%float then Raise ZeroDivisionError
    else Ok (PrimFloat.div x y)).

(** [float(s)] on the plain decimal literals [digits], [digits.],
    [digits.digits] and [.digits]: the binary64 number nearest to the
    decimal value, ties to even. This is the part of the built-in's
    grammar that percentile labels use; signs, exponents, underscores,
    surrounding blanks, [inf] and [nan] are not covered and are
    rejected here. *)
Definition digit_value (c : ascii) : option Z :=
  let n := Z.of_nat (nat_of_ascii c) in
  if (48 <=? n) && (n <=? 57) then Some (n - 48) else None.

Fixpoint digits_value (acc : Z) (s : string) : option Z :=
  match s with
  | EmptyString => Some acc
  | String c s' =>
      match digit_value c with
      | Some d => digits_value (10 * acc + d) s'
      | None => None
      end
  end.

Definition exact_ratio (n : Z) (d : positive) : float :=
  match n with
  | Zpos p => SF2Prim (SFdiv prec emax (S754_finite false p 0) (S754_finite false d 0))
  | _ => 0%float
  end.

Definition float_of_decimal (s : string) : option float :=
  match split "." s with
  | [whole] =>
      if (String.length whole =? 0)%nat then None
      else option_map (fun n => exact_ratio n 1) (digits_value 0 whole)
  | [whole; frac] =>
      if (String.length whole + String.length frac =? 0)%nat then None
      else option_map
             (fun n => exact_ratio n (Z.to_pos (10 ^ Z.of_nat (String.length frac))))
             (digits_value 0 (whole ++ frac))
  | _ => None
  end.

End Py.

Import Py.

Declare Scope py_scope.
Delimit Scope py_scope with py.
Notation "x <- c ;; k" := (Py.bind c (fun x => k))
  (at level 61, c at next level, right associativity) : py_scope.
Local Open Scope py_scope.

(** ** The data model *)

(** One row of the country data set, [WID_data_<country>.csv]. *)
Record Observation : Type := mkObservation {
  col_variable : string;
  col_year : Z;
  col_percentile : string;
  col_value : float
}.

(** One row of the frame [main] hands to [prepare_summary_data]: the
    "percentile" column then holds the lower bound of the band. *)
Record NumericRow : Type := mkNumericRow {
  num_percentile : float;
  num_value : float
}.

(** One row of the variable metadata, [WID_metadata_<country>.csv]. *)
Record MetaRow : Type := mkMetaRow {
  meta_variable : string;
  meta_unit : string;
  meta_shortname : string;
  meta_shorttype : string;
  meta_shortpop : string;
  meta_shortage : string
}.

(** One record of the summary frame. *)
Record SummaryRecord : Type := mkSummaryRecord {
  percentile : string;
  value_usd : Z;
  usd : string;
  local : string;
  afford : string
}.

(** [df[mask]]: the rows whose mask entry is [True], in the frame's order. *)
Fixpoint boolean_index {A : Type} (df : list A) (mask : list bool) : list A :=
  match df, mask with
  | r :: df', b :: mask' =>
      if b then r :: boolean_index df' mask' else boolean_index df' mask'
  | _, _ => []
  end.

(** ** [parse_percentile] *)

Section PercentileParser.

(** The built-in [float] on strings; [None] is its [ValueError]. *)
Variable py_float : string -> option float.

Definition float_or_raise (s : string) : result float :=
  match py_float s with
  | Some f => Ok f
  | None => Raise ValueError
  end.

(** [tuple(map(float, x.strip("p").split("p")))]; the tuple is a list,
    its length is whatever the split gives. *)
Definition parse_percentile (x : string) : result (list float) :=
  Py.mapM float_or_raise (Py.split "p" (Py.strip "p" x)).

End PercentileParser.

(** ** [get_income_groups] *)

(** ["p{}p{}".format(a, b)] and ["p{}p100".format(a)] on integers. *)
Definition format_p_p (a b : Z) : string := "p" ++ Py.str a ++ "p" ++ Py.str b.
Definition format_p_p100 (a : Z) : string := "p" ++ Py.str a ++ "p100".

Definition get_income_groups : Py.dict (list string) :=
  [ ("key_groups",
      (["p0p100"; "p0p50"; "p50p90"; "p90p99"; "p99p100"; "p99.99p100"]
       ++ map (fun i => format_p_p (i * 10) ((i + 1) * 10)) (Py.range 10))%list);
    ("detailed_p_groups",
      (map (fun i => format_p_p i (i + 1)) (Py.range 99)
       ++ ["p99p99.1"; "p99.1p99.2"; "p99.2p99.3"; "p99.3p99.4"; "p99.4p99.5";
           "p99.5p99.6"; "p99.6p99.7"; "p99.7p99.8"; "p99.8p99.9"]
       ++ ["p99.9p99.91"; "p99.91p99.92"; "p99.92p99.93"; "p99.93p99.94";
           "p99.94p99.95"; "p99.95p99.96"; "p99.96p99.97"; "p99.97p99.98";
           "p99.98p99.99"]
       ++ ["p99.99p99.991"; "p99.991p99.992"; "p99.992p99.993";
           "p99.993p99.994"; "p99.994p99.995"; "p99.995p99.996";
           "p99.996p99.997"; "p99.997p99.998"; "p99.998p99.999"]
       ++ ["p99.999p100"])%list);
    ("detailed_top_groups",
      map format_p_p100 (Py.range 100)) ].

(** ** [filter_data] *)

(** The three masks are evaluated in turn; the last one calls its lambda,
    and with it [groups[group_name]], once per remaining row. A frame is
    the list of its rows: the frame without columns that pandas returns
    when no row is left for the last mask is the empty list. *)
Definition filter_data (df : list Observation) (variable : string) (year : Z)
    (group_name : string) : result (list Observation) :=
  let groups := get_income_groups in
  let df := boolean_index df (map (fun r => String.eqb (col_variable r) variable) df) in
  let df := boolean_index df (map (fun r => Z.eqb (col_year r) year) df) in
  mask <- Py.mapM (fun r => labels <- Py.getitem groups group_name ;;
                            Ok (Py.str_in (col_percentile r) labels)) df ;;
  Ok (boolean_index df mask).

(** The step of [main] that follows the filter: an empty frame is
    reported with [st.error] and the run stops there. *)
Inductive FilterStage : Type :=
| StopWithError (message : string)
| Continue (filtered_df : list Observation).

Definition main_filter_stage (df : list Observation) (variable : string)
    (year : Z) (group_name : string) : result FilterStage :=
  filtered_df <- filter_data df variable year group_name ;;
  if (List.length filtered_df =? 0)%nat
  then Ok (StopWithError "No data available")
  else Ok (Continue filtered_df).

(** ** [get_afford] *)

Definition get_afford (income_usd : Z) : string :=
  let n := income_usd in
  if n <=? 0 then "☠️"
  else if n <? 100 then "nice dinner for two 🍽️"
  else if n <? 200 then "pair of Nike shoes 👟"
  else if n <? 300 then "weekend hotel stay 🏨"
  else if n <? 500 then "budget smartphone 📱"
  else if n <? 750 then "round-trip domestic flight ✈️"
  else if n <? 1000 then "month's rent in a small town 🏠"
  else if n <? 2000 then "gaming console 🎮"
  else if n <? 3000 then "high-end laptop 💻"
  else if n <? 5000 then "used motorcycle 🏍️"
  else if n <? 7500 then "home theater system 📺"
  else if n <? 10000 then "semester at community college 🎓"
  else if n <? 25000 then "decent used car 🚗"
  else if n <? 35000 then "new economy car 🚙"
  else if n <? 50000 then "wedding celebration 💒"
  else if n <? 75000 then "year at private university 🎓"
  else if n <? 100000 then "Tesla Model 3 🚘"
  else if n <? 150000 then "mobile home 🏠"
  else if n <? 250000 then "small apartment in suburbs 🏢"
  else if n <? 350000 then "condo in a major city 🌃"
  else if n <? 500000 then "nice house in most cities 🏡"
  else if n <? 750000 then "beach house 🏖️"
  else if n <? 1500000 then "luxury yacht ⛵"
  else if n <? 2000000 then "Bugatti supercar 🏎️"
  else if n <? 3000000 then "penthouse apartment 🏙️"
  else if n <? 5000000 then "private jet share ✈️"
  else if n <? 7500000 then "small vineyard 🍇"
  else if n <? 10000000 then "mansion in Beverly Hills 🏰"
  else if n <? 20000000 then "private jet ✈️"
  else if n <? 30000000 then "luxury hotel 🏨"
  else if n <? 50000000 then "private island 🏝️"
  else if n <? 75000000 then "minor league sports team ⚾"
  else if n <? 100000000 then "professional sports team 🏈"
  else if n <? 200000000 then "skyscraper 🏢"
  else if n <? 300000000 then "cruise ship 🚢"
  else if n <? 500000000 then "space tourism ticket 🚀"
  else if n <? 750000000 then "major hospital 🏥"
  else if n <? 1000000000 then "satellite constellation 🛰️"
  else if n <? 5000000000 then "nuclear power plant ⚡"
  else if n <? 10000000000 then "An aircraft carrier 🚢"
  else "small country's GDP 🌍".

(** ** [prepare_summary_data] *)

Definition percentile_cutoffs : list (float * string) :=
  [ (1%float, "Bottom 1%");
    (5%float, "Bottom 5%");
    (10%float, "Bottom 10%");
    (50%float, "Middle 50%");
    (90%float, "Top 10%");
    (95%float, "Top 5%");
    (99%float, "Top 1%");
    (99.9%float, "Top 0.1%");
    (99.99%float, "Top 0.01%");
    (99.999%float, "Top 0.001%") ].

Section SummaryAggregator.

(** Babel, the formatting library: the official languages of a
    territory, the locale parser ([None] is its [UnknownLocaleError])
    and the compact currency formatter with one fraction digit. The
    formatter is modelled where it returns: the exception Babel raises
    on an amount it cannot round, one of some 39 digits or more, is
    outside the model. *)
Variable get_official_languages : string -> list string.
Variable Locale_parse : string -> option string.
Variable format_compact_currency : Z -> string -> string -> string.

(** [get_locale]: the last official language of the country, or
    ["en_US"] when there is none or Babel does not know the locale. *)
Definition get_locale (country_code currency : string) : string :=
  match rev (get_official_languages country_code) with
  | [] => "en_US"
  | language :: _ =>
      match Locale_parse (language ++ "_" ++ country_code) with
      | Some locale => locale
      | None => "en_US"
      end
  end.

(** [df[df["percentile"] == cutoff]["value"].values]. *)
Definition values_at (df : list NumericRow) (cutoff : float) : list float :=
  map num_value
      (boolean_index df (map (fun r => PrimFloat.eqb (num_percentile r) cutoff) df)).

(** The body of the loop over the cutoffs. *)
Definition summary_record (df : list NumericRow) (currency country_code : string)
    (conversion_rate : float) (cutoff : float) (label : string)
    : result SummaryRecord :=
  v <- Py.first (values_at df cutoff) ;;
  value <- Py.int_of_float v ;;
  let locale := get_locale country_code currency in
  let fmt_local := format_compact_currency value currency locale in
  q <- Py.truediv value conversion_rate ;;
  value_usd <- Py.round q ;;
  let fmt_usd := format_compact_currency value_usd "USD" "en_US" in
  Ok {| percentile := label;
        value_usd := value_usd;
        usd := fmt_usd;
        local := fmt_local;
        afford := get_afford value_usd |}.

(** The loop: [records] grows by one record per cutoff, in order; an
    exception leaves the loop and the function. *)
Fixpoint summary_loop (df : list NumericRow) (currency country_code : string)
    (conversion_rate : float) (cutoffs : list (float * string))
    (records : list SummaryRecord) : result (list SummaryRecord) :=
  match cutoffs with
  | [] => Ok records
  | (cutoff, label) :: cutoffs' =>
      r <- summary_record df currency country_code conversion_rate cutoff label ;;
      summary_loop df currency country_code conversion_rate cutoffs' (records ++ [r])%list
  end.

Definition prepare_summary_data (df : list NumericRow) (var_meta : list MetaRow)
    (country_code : string) (conversion_rate : float)
    : result (list SummaryRecord) :=
  currency <- Py.first (map meta_unit var_meta) ;;
  summary_loop df currency country_code conversion_rate percentile_cutoffs [].

End SummaryAggregator.

(** ** Definitions used to state the properties *)

(** The affordability lookup as data: the exclusive upper bounds of the
    [case] arms of [get_afford] with their labels, in the order of the
    arms, the label of the first arm and the label of the last one. *)
Definition sentinel_label : string := "☠️".
Definition catch_all_label : string := "small country's GDP 🌍".

Definition afford_table : list (Z * string) :=
  [
   (100, "nice dinner for two 🍽️");
   (200, "pair of Nike shoes 👟");
   (300, "weekend hotel stay 🏨");
   (500, "budget smartphone 📱");
   (750, "round-trip domestic flight ✈️");
   (1000, "month's rent in a small town 🏠");
   (2000, "gaming console 🎮");
   (3000, "high-end laptop 💻");
   (5000, "used motorcycle 🏍️");
   (7500, "home theater system 📺");
   (10000, "semester at community college 🎓");
   (25000, "decent used car 🚗");
   (35000, "new economy car 🚙");
   (50000, "wedding celebration 💒");
   (75000, "year at private university 🎓");
   (100000, "Tesla Model 3 🚘");
   (150000, "mobile home 🏠");
   (250000, "small apartment in suburbs 🏢");
   (350000, "condo in a major city 🌃");
   (500000, "nice house in most cities 🏡");
   (750000, "beach house 🏖️");
   (1500000, "luxury yacht ⛵");
   (2000000, "Bugatti supercar 🏎️");
   (3000000, "penthouse apartment 🏙️");
   (5000000, "private jet share ✈️");
   (7500000, "small vineyard 🍇");
   (10000000, "mansion in Beverly Hills 🏰");
   (20000000, "private jet ✈️");
   (30000000, "luxury hotel 🏨");
   (50000000, "private island 🏝️");
   (75000000, "minor league sports team ⚾");
   (100000000, "professional sports team 🏈");
   (200000000, "skyscraper 🏢");
   (300000000, "cruise ship 🚢");
   (500000000, "space tourism ticket 🚀");
   (750000000, "major hospital 🏥");
   (1000000000, "satellite constellation 🛰️");
   (5000000000, "nuclear power plant ⚡");
   (10000000000, "An aircraft carrier 🚢")].

(** The label of the first bound strictly greater than [amount], in a
    table and in the table of [get_afford]. *)
Definition table_label (table : list (Z * string)) (amount : Z) : string :=
  match find (fun bl => amount <? fst bl) table with
  | Some bl => snd bl
  | None => catch_all_label
  end.

Definition label_above (amount : Z) : string := table_label afford_table amount.

(** Every label the lookup can return, from the lowest bucket up. *)
Definition afford_labels : list string :=
  (sentinel_label :: map snd afford_table ++ [catch_all_label])%list.

(** The rank of a label in that list: the severity of its bucket. *)
Fixpoint index_of (x : string) (l : list string) : nat :=
  match l with
  | [] => 0%nat
  | y :: l' => if String.eqb y x then 0%nat else S (index_of x l')
  end.

Definition severity (label : string) : nat := index_of label afford_labels.

(** The boundaries as the specification lists them. *)
Definition afford_bounds : list Z :=
  [100; 200; 300; 500; 750; 1000; 2000; 3000; 5000; 7500; 10000; 25000;
   35000; 50000; 75000; 100000; 150000; 250000; 350000; 500000; 750000;
   1500000; 2000000; 3000000; 5000000; 7500000; 10000000; 20000000;
   30000000; 50000000; 75000000; 100000000; 200000000; 300000000;
   500000000; 750000000; 1000000000; 5000000000; 10000000000].

(** [s] has no character ["p"]. *)
Definition p_free (s : string) : bool :=
  forallb (fun c => negb (Ascii.eqb c "p")) (list_ascii_of_string s).

(** The pieces [parse_percentile] hands to [float]. *)
Definition components (x : string) : list string :=
  Py.split "p" (Py.strip "p" x).

(** The internal separators of a label: the "p"s that are left once the
    leading and trailing ones are stripped. *)
Fixpoint count_char (c : ascii) (s : string) : nat :=
  match s with
  | EmptyString => 0%nat
  | String c' s' => if Ascii.eqb c' c then S (count_char c s') else count_char c s'
  end.

Definition separators (x : string) : nat := count_char "p" (Py.strip "p" x).

(** A parsed label is an interval inside [0, 100]. *)
Definition is_interval (t : list float) : bool :=
  match t with
  | [lower; upper] =>
      PrimFloat.leb 0 lower && PrimFloat.ltb lower upper && PrimFloat.leb upper 100
  | _ => false
  end.

(** The same test on a label, read with the decimal [float]. *)
Definition label_is_interval (label : string) : bool :=
  match parse_percentile Py.float_of_decimal label with
  | Ok t => is_interval t
  | Raise _ => false
  end.

(** The row test of [filter_data] as one predicate. *)
Definition selected (variable : string) (year : Z) (labels : list string)
    (r : Observation) : bool :=
  String.eqb (col_variable r) variable
  && Z.eqb (col_year r) year
  && Py.str_in (col_percentile r) labels.

(** [xs] is [ys] with some elements left out, the others in their order. *)
Inductive Subsequence {A : Type} : list A -> list A -> Prop :=
| Subsequence_nil : Subsequence [] []
| Subsequence_skip x xs ys : Subsequence xs ys -> Subsequence xs (x :: ys)
| Subsequence_keep x xs ys : Subsequence xs ys -> Subsequence (x :: xs) (x :: ys).

(** The numeric part of the loop body of [prepare_summary_data]: the
    native value read with [int], divided by the rate and rounded. *)
Definition to_reference (conversion_rate : float) (v : float) : result Z :=
  value <- Py.int_of_float v ;;
  q <- Py.truediv value conversion_rate ;;
  Py.round q.

(** What the summary records say about the reference currency. *)
Definition reference_view (r : SummaryRecord) : string * Z * string :=
  (percentile r, value_usd r, afford r).

(** A stand-in for Babel, to run the summary on concrete frames: no
    official language is known, no locale parses, and an amount prints
    as the currency code followed by the integer. *)
Module Standin.
Definition get_official_languages (territory : string) : list string := [].
Definition Locale_parse (identifier : string) : option string := None.
Definition format_compact_currency (number : Z) (currency locale : string) : string :=
  currency ++ " " ++ Py.str number.
End Standin.

(** The frame of the worked example: the ten cutoffs with the native
    values 1, 5, 10, 50, 90, 95, 99, 999, 9999, 99999. *)
Definition example_frame : list NumericRow :=
  [ mkNumericRow 1 1; mkNumericRow 5 5; mkNumericRow 10 10;
    mkNumericRow 50 50; mkNumericRow 90 90; mkNumericRow 95 95;
    mkNumericRow 99 99; mkNumericRow 99.9 999; mkNumericRow 99.99 9999;
    mkNumericRow 99.999 99999 ]%float.



(** A small country frame and the labels of one catalog group, for the
    worked instances of the filter. *)
Definition sample_observations : list Observation :=
  [ mkObservation "aptincj992" 2021 "p0p50" 1200;
    mkObservation "aptincj992" 2021 "p3p4" 310;
    mkObservation "ahwealj992" 2021 "p0p50" 95;
    mkObservation "aptincj992" 2020 "p90p100" 8800;
    mkObservation "aptincj992" 2021 "p90p100" 9100 ]%float.

Definition key_group_labels : list string :=
  Eval vm_compute in
    match Py.getitem get_income_groups "key_groups" with
    | Ok labels => labels
    | Raise _ => []
    end.

Definition example_meta : list MetaRow :=
  [ mkMetaRow "aptincj992" "INR" "Pre-tax national income" "Average" "equal-split adults" "Adults" ].

(** ** The rest of the data path: [format_variable],
       [get_currency_conversion_rate] and [main] *)

(** [sep.join(xs)]. *)
Fixpoint join (sep : string) (xs : list string) : string :=
  match xs with
  | [] => EmptyString
  | [x] => x
  | x :: xs' => x ++ sep ++ join sep xs'
  end.

(** [meta[meta["variable"] == v]]. *)
Definition meta_of (meta : list MetaRow) (v : string) : list MetaRow :=
  boolean_index meta (map (fun m => String.eqb (meta_variable m) v) meta).

(** [format_variable]: the description columns of the first metadata row
    of the variable, in the order of [desc_cols]; the cells are strings,
    which [str] leaves as they are. *)
Definition format_variable (v : string) (meta : list MetaRow) : result string :=
  row <- Py.first (meta_of meta v) ;;
  Ok (join " | " [meta_shortname row; meta_shorttype row; meta_shortpop row;
                  meta_shortage row; meta_unit row]).

(** What the data path of [main] ends with: the "No data available"
    stop, or the sorted numeric frame, the rate and the summary frame
    that the rest of [main] displays. *)
Inductive MainOutcome : Type :=
| NoData (message : string)
| Summarised (filtered_df : list NumericRow) (conversion_rate : float)
             (summary_df : list SummaryRecord).

Section MainDataPath.

(** The built-in [float], the ["rates"] object of the exchange-rate
    provider's answer, pandas' [sort_values(by="percentile")] and
    Babel. *)
Variable py_float : string -> option float.
Variable exchange_rates : Py.dict float.
Variable sort_values : list NumericRow -> list NumericRow.
Variable get_official_languages : string -> list string.
Variable Locale_parse : string -> option string.
Variable format_compact_currency : Z -> string -> string -> string.

(** [get_currency_conversion_rate]: [data["rates"][currency]]. *)
Definition get_currency_conversion_rate (currency : string) : result float :=
  Py.getitem exchange_rates currency.

(** [filtered_df["percentile"].apply(parse_percentile)] on the columns
    "percentile" and "value". *)
Definition percentile_tuples (df : list Observation)
    : result (list (list float * float)) :=
  Py.mapM (fun r => t <- parse_percentile py_float (col_percentile r) ;;
                    Ok (t, col_value r)) df.

(** [filtered_df["percentile"].apply(lambda x: x[0])]. *)
Definition lower_bounds (df : list (list float * float)) : result (list NumericRow) :=
  Py.mapM (fun tv => x <- Py.first (fst tv) ;; Ok (mkNumericRow x (snd tv))) df.

(** [main] from the selections to the summary frame; the widgets, which
    supply the selections and display the frames, are left out. *)
Definition main_data_path (df : list Observation) (meta : list MetaRow)
    (country_code variable : string) (year : Z) (group_name : string)
    : result MainOutcome :=
  let var_meta := meta_of meta variable in
  filtered_df <- filter_data df variable year group_name ;;
  if (List.length filtered_df =? 0)%nat then Ok (NoData "No data available")
  else
    tuples <- percentile_tuples filtered_df ;;
    lowers <- lower_bounds tuples ;;
    let filtered_df := sort_values lowers in
    currency <- Py.first (map meta_unit var_meta) ;;
    conversion_rate <- get_currency_conversion_rate currency ;;
    summary_df <- prepare_summary_data get_official_languages Locale_parse
                    format_compact_currency filtered_df var_meta country_code
                    conversion_rate ;;
    Ok (Summarised filtered_df conversion_rate summary_df).

End MainDataPath.

(** [x.between(left, right)], both ends included, and the frame of the
    detailed view: [filtered_df[filtered_df["percentile"].between(start, end)]]. *)
Definition between (x left right : float) : bool :=
  PrimFloat.leb left x && PrimFloat.leb x right.

Definition detailed_frame (filtered_df : list NumericRow) (start end_ : float)
    : list NumericRow :=
  boolean_index filtered_df
    (map (fun r => between (num_percentile r) start end_) filtered_df).

(** ** Definitions used to state the further properties *)

(** The thresholds of [get_afford]: 1 for leaving the sentinel bucket,
    then the bounds of the table. *)
Definition thresholds : list Z := 1 :: map fst afford_table.

(** The bands follow one another from [from] to [to]: each is a pair
    with [lower < upper], the first starts at [from], each next one
    starts where the one before ends, and the last ends at [to]. *)
Fixpoint tiles (from to : float) (bands : list (list float)) : bool :=
  match bands with
  | [] => PrimFloat.eqb from to
  | [lower; upper] :: bands' =>
      PrimFloat.eqb lower from && PrimFloat.ltb lower upper && tiles upper to bands'
  | _ => false
  end.

(** The lower bound of a label, read with the decimal [float]. *)
Definition lower_bound_of (label : string) : option float :=
  match parse_percentile Py.float_of_decimal label with
  | Ok (lower :: _) => Some lower
  | _ => None
  end.

(** Some label of the list has the lower bound [cutoff]. *)
Definition has_lower_bound (labels : list string) (cutoff : float) : bool :=
  existsb (fun label => match lower_bound_of label with
                        | Some lower => PrimFloat.eqb lower cutoff
                        | None => false
                        end) labels.

(** The labels of the two other catalog groups. *)
Definition detailed_p_labels : list string :=
  Eval vm_compute in
    match Py.getitem get_income_groups "detailed_p_groups" with
    | Ok labels => labels
    | Raise _ => []
    end.

Definition detailed_top_labels : list string :=
  Eval vm_compute in
    match Py.getitem get_income_groups "detailed_top_groups" with
    | Ok labels => labels
    | Raise _ => []
    end.

(** Stand-ins to run the data path on concrete frames: an insertion
    sort on the "percentile" column and a table of two rates. *)
Module StandinFrame.
Fixpoint insert_row (r : NumericRow) (rows : list NumericRow) : list NumericRow :=
  match rows with
  | [] => [r]
  | r' :: rows' =>
      if PrimFloat.leb (num_percentile r) (num_percentile r') then r :: rows
      else r' :: insert_row r rows'
  end.
Definition sort_values (rows : list NumericRow) : list NumericRow :=
  fold_right insert_row [] rows.
Definition exchange_rates : Py.dict float := [("USD", 1%float); ("INR", 80%float)].
End StandinFrame.

(** The summary of the worked example, and the worked example with
    rows that the summary does not read: a second row at the cutoff 50
    and a row at the percentile 42. *)
Definition example_summary : list SummaryRecord :=
  Eval vm_compute in
    match prepare_summary_data Standin.get_official_languages Standin.Locale_parse
            Standin.format_compact_currency example_frame example_meta "IN" 2 with
    | Ok records => records
    | Raise _ => []
    end.

Definition padded_frame : list NumericRow :=
  (example_frame ++ [ mkNumericRow 50 7777; mkNumericRow 42 4242 ]%float)%list.

(** The lower bound of a label lies in the range from 0 to 100, 100
    left out. *)
Definition lower_in_range (label : string) : bool :=
  match lower_bound_of label with
  | Some lower => PrimFloat.leb 0 lower && PrimFloat.ltb lower 100
  | None => false
  end.

(** The ten labels of [detailed_p_groups] that start at a cutoff. *)
Definition cutoff_labels : list string :=
  ["p1p2"; "p5p6"; "p10p11"; "p50p51"; "p90p91"; "p95p96"; "p99p99.1";
   "p99.9p99.91"; "p99.99p99.991"; "p99.999p100"].

(** A country frame with a row for each of these labels, and one more. *)
Definition complete_observations : list Observation :=
  [ mkObservation "aptincj992" 2021 "p99.999p100" 99999;
    mkObservation "aptincj992" 2021 "p1p2" 1;
    mkObservation "aptincj992" 2021 "p5p6" 5;
    mkObservation "aptincj992" 2021 "p10p11" 10;
    mkObservation "aptincj992" 2021 "p50p51" 50;
    mkObservation "aptincj992" 2021 "p90p91" 90;
    mkObservation "aptincj992" 2021 "p95p96" 95;
    mkObservation "aptincj992" 2021 "p99p99.1" 99;
    mkObservation "aptincj992" 2021 "p99.9p99.91" 999;
    mkObservation "aptincj992" 2021 "p99.99p99.991" 9999;
    mkObservation "aptincj992" 2021 "p42p43" 42 ]%float.

(** The lower bound of a label passes the default range of the
    detailed view. *)
Definition lower_in_default_range (label : string) : bool :=
  match lower_bound_of label with
  | Some lower => between lower 0 100
  | None => false
  end.

(** A metadata frame whose unit has no rate in the stand-in table. *)
Definition euro_meta : list MetaRow :=
  [ mkMetaRow "aptincj992" "EUR" "Pre-tax national income" "Average" "equal-split adults" "Adults" ].

(** * Properties *)

(** ** The result type and the frame operations *)

Lemma bind_Ok_inv {A B : Type} (c : result A) (k : A -> result B) (b : B) :
  Py.bind c k = Ok b -> exists a, c = Ok a /\ k a = Ok b.
Proof.
  destruct c as [a | e]; simpl; intros H.
  - exists a. split; [reflexivity | exact H].
  - discriminate H.
Qed.

Lemma boolean_index_map {A : Type} (p : A -> bool) (df : list A) :
  boolean_index df (map p df) = filter p df.
Proof.
  induction df as [| r df IH]; simpl.
  - reflexivity.
  - rewrite IH. reflexivity.
Qed.

Lemma filter_twice {A : Type} (p q : A -> bool) (l : list A) :
  filter q (filter p l) = filter (fun x => p x && q x) l.
Proof.
  induction l as [| x l IH]; simpl; [reflexivity |].
  destruct (p x) eqn:Hp; simpl.
  - destruct (q x); rewrite IH; reflexivity.
  - exact IH.
Qed.

Lemma filter_Subsequence {A : Type} (p : A -> bool) (l : list A) :
  Subsequence (filter p l) l.
Proof.
  induction l as [| x l IH]; simpl.
  - constructor.
  - destruct (p x); constructor; exact IH.
Qed.

Lemma mapM_pure {A B : Type} (f : A -> B) (xs : list A) :
  Py.mapM (fun x => Ok (f x)) xs = Ok (map f xs).
Proof.
  induction xs as [| x xs IH]; simpl; [reflexivity |].
  rewrite IH. reflexivity.
Qed.

Lemma str_in_In (x : string) (xs : list string) :
  Py.str_in x xs = true <-> In x xs.
Proof.
  unfold Py.str_in. rewrite existsb_exists. split.
  - intros [y [Hy Heq]]. apply String.eqb_eq in Heq. subst y. exact Hy.
  - intros H. exists x. split; [exact H | apply String.eqb_refl].
Qed.

Lemma selected_iff (variable : string) (year : Z) (labels : list string)
    (r : Observation) :
  selected variable year labels r = true <->
  col_variable r = variable /\ col_year r = year /\ In (col_percentile r) labels.
Proof.
  unfold selected. rewrite !andb_true_iff, String.eqb_eq, Z.eqb_eq, str_in_In.
  tauto.
Qed.

(** ** [filter_data] *)

(** The third mask, once the group is known. *)
Lemma group_mask_known (group_name : string) (labels : list string)
    (df : list Observation) :
  Py.getitem get_income_groups group_name = Ok labels ->
  Py.mapM (fun r => labels <- Py.getitem get_income_groups group_name ;;
                    Ok (Py.str_in (col_percentile r) labels)) df
  = Ok (map (fun r => Py.str_in (col_percentile r) labels) df).
Proof.
  intros Hg.
  rewrite Hg. cbn [Py.bind]. apply mapM_pure.
Qed.

Lemma filter_data_catalog (df : list Observation) (variable : string) (year : Z)
    (group_name : string) (labels : list string) :
  Py.getitem get_income_groups group_name = Ok labels ->
  filter_data df variable year group_name
  = Ok (filter (selected variable year labels) df).
Proof.
  intros Hg. unfold filter_data.
  rewrite (group_mask_known _ _ _ Hg). cbn [Py.bind].
  rewrite !boolean_index_map, !filter_twice. f_equal.
  apply filter_ext. intros r. unfold selected. apply andb_assoc.
Qed.

(** With no candidate row the lambda of the third mask is never called. *)
Lemma filter_data_no_candidate (df : list Observation) (variable : string)
    (year : Z) (group_name : string) :
  filter (fun r => String.eqb (col_variable r) variable && Z.eqb (col_year r) year) df = [] ->
  filter_data df variable year group_name = Ok [].
Proof.
  intros Hnone. unfold filter_data.
  rewrite !boolean_index_map, filter_twice, Hnone. reflexivity.
Qed.

Lemma filter_none {A : Type} (p : A -> bool) (l : list A) :
  (forall x, In x l -> p x = false) -> filter p l = [].
Proof.
  induction l as [| x l IH]; simpl; intros Hall; [reflexivity |].
  rewrite (Hall x (or_introl eq_refl)). apply IH.
  intros y Hy. apply Hall. right. exact Hy.
Qed.

(** C5. For a group name of the catalog, [filter_data] returns a frame,
    and a row is in it exactly when it is a row of the input whose
    variable is the requested one, whose year is the requested one and
    whose percentile label belongs to the group: every returned row meets
    the three conditions and no other row is returned. *)
Theorem filter_data_rows (df : list Observation) (variable : string) (year : Z)
    (group_name : string) (labels : list string) :
  Py.getitem get_income_groups group_name = Ok labels ->
  exists out,
    filter_data df variable year group_name = Ok out /\
    forall r, In r out <->
              (In r df /\ col_variable r = variable /\ col_year r = year
               /\ In (col_percentile r) labels).
Proof.
  intros Hg. exists (filter (selected variable year labels) df). split.
  - apply filter_data_catalog. exact Hg.
  - intros r. rewrite filter_In, selected_iff. reflexivity.
Qed.

Lemma filter_data_rows_witness :
  exists out,
    filter_data sample_observations "aptincj992" 2021 "key_groups" = Ok out /\
    forall r, In r out <->
              (In r sample_observations /\ col_variable r = "aptincj992"
               /\ col_year r = 2021 /\ In (col_percentile r) key_group_labels).
Proof.
  exact (filter_data_rows sample_observations "aptincj992" 2021 "key_groups"
           key_group_labels eq_refl).
Defined.

(** C9. When no row of the data set has both the requested variable and
    the requested year, [filter_data] returns the empty frame, whatever
    the group name, and raises nothing; [main] then reports
    "No data available" and stops. *)
Theorem filter_data_no_match (df : list Observation) (variable : string)
    (year : Z) (group_name : string) :
  (forall r, In r df -> ~ (col_variable r = variable /\ col_year r = year)) ->
  filter_data df variable year group_name = Ok [] /\
  main_filter_stage df variable year group_name
  = Ok (StopWithError "No data available").
Proof.
  intros Hnone.
  assert (Hempty : filter_data df variable year group_name = Ok []).
  { apply filter_data_no_candidate. apply filter_none. intros r Hr.
    apply not_true_is_false. intros Hsel.
    apply andb_true_iff in Hsel. destruct Hsel as [Hv Hy].
    apply (Hnone r Hr). split.
    - apply String.eqb_eq. exact Hv.
    - apply Z.eqb_eq. exact Hy. }
  split; [exact Hempty |].
  unfold main_filter_stage. rewrite Hempty. reflexivity.
Qed.

Lemma filter_data_no_match_witness :
  filter_data sample_observations "aptincj992" 1999 "no_such_group" = Ok [] /\
  main_filter_stage sample_observations "aptincj992" 1999 "no_such_group"
  = Ok (StopWithError "No data available").
Proof.
  apply (filter_data_no_match sample_observations "aptincj992" 1999 "no_such_group").
  intros r Hr [_ Hyear]. simpl in Hr.
  repeat (destruct Hr as [Hr | Hr]; [subst r; simpl in Hyear; discriminate Hyear |]).
  exact Hr.
Defined.

(** C10. For a group name of the catalog, the frame [filter_data] returns
    is the input with the rows that fail the variable, year or group test
    left out and the other rows in their input order: it is a function of
    its arguments, equal to one pass of [filter] over the input, and a
    subsequence of the input. *)
Theorem filter_data_order (df : list Observation) (variable : string) (year : Z)
    (group_name : string) (labels : list string) :
  Py.getitem get_income_groups group_name = Ok labels ->
  filter_data df variable year group_name
  = Ok (filter (selected variable year labels) df)
  /\ Subsequence (filter (selected variable year labels) df) df.
Proof.
  intros Hg. split.
  - apply filter_data_catalog. exact Hg.
  - apply filter_Subsequence.
Qed.

Lemma filter_data_order_witness :
  filter_data sample_observations "aptincj992" 2021 "key_groups"
  = Ok (filter (selected "aptincj992" 2021 key_group_labels) sample_observations)
  /\ Subsequence (filter (selected "aptincj992" 2021 key_group_labels) sample_observations)
                 sample_observations.
Proof.
  exact (filter_data_order sample_observations "aptincj992" 2021 "key_groups"
           key_group_labels eq_refl).
Defined.

(** ** [get_income_groups] *)

Lemma getitem_In {V : Type} (d : Py.dict V) (k : string) (v : V) :
  Py.getitem d k = Ok v -> In (k, v) d.
Proof.
  induction d as [| [k' v'] d IH]; simpl; intros H.
  - discriminate H.
  - destruct (String.eqb k' k) eqn:Hk.
    + apply String.eqb_eq in Hk. injection H as ->. subst k'. left. reflexivity.
    + right. apply IH. exact H.
Qed.

(** C4. The catalog has exactly the three groups [key_groups],
    [detailed_p_groups] and [detailed_top_groups]. [key_groups] is the 6
    named splits followed by the 10 decile bands, 16 labels;
    [detailed_p_groups] is the 99 unit bands, then 9 tenth bands, 9
    hundredth bands, 9 thousandth bands and the band [p99.999p100], 127
    labels; [detailed_top_groups] is the 100 labels [p0p100] to
    [p99p100]. *)
Theorem get_income_groups_sizes :
  Py.keys get_income_groups
  = ["key_groups"; "detailed_p_groups"; "detailed_top_groups"]
  /\ (exists named deciles,
        Py.getitem get_income_groups "key_groups" = Ok (named ++ deciles)%list
        /\ named = ["p0p100"; "p0p50"; "p50p90"; "p90p99"; "p99p100"; "p99.99p100"]
        /\ deciles = ["p0p10"; "p10p20"; "p20p30"; "p30p40"; "p40p50";
                      "p50p60"; "p60p70"; "p70p80"; "p80p90"; "p90p100"]
        /\ List.length named = 6%nat /\ List.length deciles = 10%nat
        /\ List.length (named ++ deciles)%list = 16%nat)
  /\ (exists units tenths hundredths thousandths,
        Py.getitem get_income_groups "detailed_p_groups"
        = Ok (units ++ tenths ++ hundredths ++ thousandths ++ ["p99.999p100"])%list
        /\ units = map (fun i => format_p_p i (i + 1)) (Py.range 99)
        /\ tenths = ["p99p99.1"; "p99.1p99.2"; "p99.2p99.3"; "p99.3p99.4";
                     "p99.4p99.5"; "p99.5p99.6"; "p99.6p99.7"; "p99.7p99.8";
                     "p99.8p99.9"]
        /\ hundredths = ["p99.9p99.91"; "p99.91p99.92"; "p99.92p99.93";
                         "p99.93p99.94"; "p99.94p99.95"; "p99.95p99.96";
                         "p99.96p99.97"; "p99.97p99.98"; "p99.98p99.99"]
        /\ thousandths = ["p99.99p99.991"; "p99.991p99.992"; "p99.992p99.993";
                          "p99.993p99.994"; "p99.994p99.995"; "p99.995p99.996";
                          "p99.996p99.997"; "p99.997p99.998"; "p99.998p99.999"]
        /\ List.length units = 99%nat /\ List.length tenths = 9%nat
        /\ List.length hundredths = 9%nat /\ List.length thousandths = 9%nat
        /\ List.length (units ++ tenths ++ hundredths ++ thousandths
                        ++ ["p99.999p100"])%list = 127%nat)
  /\ (exists tops,
        Py.getitem get_income_groups "detailed_top_groups" = Ok tops
        /\ tops = map format_p_p100 (Py.range 100)
        /\ List.length tops = 100%nat
        /\ hd "" tops = "p0p100" /\ last tops "" = "p99p100").
Proof.
  split; [reflexivity |]. split; [| split].
  - do 2 eexists. split; [| split; [reflexivity | split; [reflexivity |]]].
    + vm_compute. reflexivity.
    + repeat split.
  - do 4 eexists.
    split; [| split; [reflexivity | split; [reflexivity | split;
                [reflexivity | split; [reflexivity |]]]]].
    + vm_compute. reflexivity.
    + repeat split.
  - eexists. split; [reflexivity |]. split; [reflexivity |].
    repeat split.
Qed.

(** ** [parse_percentile] on the catalog *)

Lemma parse_percentile_transfer (f g : string -> option float) (x : string)
    (t : list float) :
  (forall s v, f s = Some v -> g s = Some v) ->
  parse_percentile f x = Ok t -> parse_percentile g x = Ok t.
Proof.
  intros Hfg. unfold parse_percentile.
  generalize (Py.split "p" (Py.strip "p" x)) as pieces.
  intros pieces. revert t.
  induction pieces as [| piece pieces IH]; intros t; simpl.
  - trivial.
  - unfold float_or_raise at 1 3.
    destruct (f piece) as [v |] eqn:Hf; [| discriminate].
    rewrite (Hfg _ _ Hf). simpl.
    destruct (Py.mapM (float_or_raise f) pieces) as [vs | e]; [| discriminate].
    rewrite (IH vs eq_refl). trivial.
Qed.

Lemma catalog_checked :
  forallb (fun kv => forallb label_is_interval (snd kv)) get_income_groups = true.
Proof. vm_compute. reflexivity. Qed.

Section CatalogLabels.

(** Any [float] that reads plain decimal literals as [float_of_decimal]
    does, whatever else it accepts. *)
Variable py_float : string -> option float.
Hypothesis py_float_decimal :
  forall s v, Py.float_of_decimal s = Some v -> py_float s = Some v.

(** C7. Every label of every group of the catalog is parsed by
    [parse_percentile] into a pair [(lower, upper)] with
    [0 <= lower < upper <= 100]. *)
Theorem catalog_labels_parse (group_name : string) (labels : list string)
    (label : string) :
  Py.getitem get_income_groups group_name = Ok labels ->
  In label labels ->
  exists lower upper,
    parse_percentile py_float label = Ok [lower; upper]
    /\ PrimFloat.leb 0 lower = true
    /\ PrimFloat.ltb lower upper = true
    /\ PrimFloat.leb upper 100 = true.
Proof.
  intros Hg Hin. apply getitem_In in Hg.
  pose proof catalog_checked as Hall.
  rewrite forallb_forall in Hall. specialize (Hall _ Hg). simpl in Hall.
  rewrite forallb_forall in Hall. specialize (Hall _ Hin).
  unfold label_is_interval in Hall.
  destruct (parse_percentile Py.float_of_decimal label) as [t | e] eqn:Hparse;
    [| discriminate Hall].
  destruct t as [| lower [| upper [| extra t]]]; try discriminate Hall.
  simpl in Hall. apply andb_true_iff in Hall. destruct Hall as [Hall Hup].
  apply andb_true_iff in Hall. destruct Hall as [Hlow Hlt].
  exists lower, upper. repeat split; try assumption.
  apply (parse_percentile_transfer Py.float_of_decimal); assumption.
Qed.

End CatalogLabels.

Lemma catalog_labels_parse_witness :
  exists lower upper,
    parse_percentile Py.float_of_decimal "p99.99p100" = Ok [lower; upper]
    /\ PrimFloat.leb 0 lower = true
    /\ PrimFloat.ltb lower upper = true
    /\ PrimFloat.leb upper 100 = true.
Proof.
  apply (catalog_labels_parse Py.float_of_decimal (fun s v H => H)
           "key_groups" key_group_labels "p99.99p100").
  - reflexivity.
  - simpl. tauto.
Defined.

(** ** [get_afford] *)

Lemma get_afford_nonpositive (n : Z) : n <= 0 -> get_afford n = sentinel_label.
Proof.
  intros Hn. unfold get_afford.
  destruct (n <=? 0) eqn:Hle; [reflexivity |].
  apply Z.leb_gt in Hle. lia.
Qed.

Lemma get_afford_positive (n : Z) : 0 < n -> get_afford n = label_above n.
Proof.
  intros Hn. unfold get_afford, label_above, table_label, afford_table.
  destruct (n <=? 0) eqn:Hle; [apply Z.leb_le in Hle; lia |].
  cbn [find fst snd].
  repeat match goal with
         | |- context [n <? ?b] => destruct (n <? b); [reflexivity |]
         end.
  reflexivity.
Qed.

Lemma get_afford_beyond (n : Z) : 10000000000 <= n -> get_afford n = catch_all_label.
Proof.
  intros Hn. unfold get_afford.
  destruct (n <=? 0) eqn:Hle; [apply Z.leb_le in Hle; lia |].
  repeat match goal with
         | |- context [n <? ?b] =>
             destruct (n <? b) eqn:?H; [apply Z.ltb_lt in H; lia | clear H]
         end.
  reflexivity.
Qed.

Lemma afford_labels_distinct : NoDup afford_labels.
Proof.
  assert (H : nodup string_dec afford_labels = afford_labels)
    by (vm_compute; reflexivity).
  rewrite <- H. apply NoDup_nodup.
Qed.

(** C3. [get_afford] is defined on every integer. An amount [<= 0] gets
    the sentinel label; an amount [> 0] gets the label of the first
    exclusive upper bound strictly greater than it, and the catch-all
    label when there is none, that is from 10000000000 on. The bounds are
    the 39 listed ones, in ascending order, and no two buckets share a
    label. In particular the labels of 0 and -5 agree, those of 99 and
    100 differ, and those of 10000000000 and 50000000000 agree. *)
Theorem get_afford_lookup :
  (forall n, n <= 0 -> get_afford n = sentinel_label)
  /\ (forall n, 0 < n -> get_afford n = label_above n)
  /\ (forall n, 10000000000 <= n -> get_afford n = catch_all_label)
  /\ map fst afford_table = afford_bounds
  /\ Sorted Z.lt afford_bounds
  /\ NoDup afford_labels
  /\ get_afford 0 = get_afford (-5)
  /\ get_afford 99 <> get_afford 100
  /\ get_afford 10000000000 = get_afford 50000000000.
Proof.
  split; [exact get_afford_nonpositive |].
  split; [exact get_afford_positive |].
  split; [exact get_afford_beyond |].
  split; [reflexivity |].
  split; [unfold afford_bounds; repeat constructor |].
  split; [exact afford_labels_distinct |].
  split; [reflexivity |].
  split; [| reflexivity].
  vm_compute. discriminate.
Qed.

Lemma get_afford_lookup_witness :
  get_afford (-5) = sentinel_label
  /\ get_afford 4200 = label_above 4200
  /\ get_afford 50000000000 = catch_all_label.
Proof.
  destruct get_afford_lookup as (Hlow & Hmid & Hhigh & _).
  split; [apply Hlow; lia |]. split; [apply Hmid; lia | apply Hhigh; lia].
Defined.

(** ** [parse_percentile] *)

Lemma char_in_p (c : ascii) : Py.char_in c "p" = Ascii.eqb c "p".
Proof. unfold Py.char_in. simpl. apply orb_false_r. Qed.

Lemma p_free_cons (c : ascii) (s : string) :
  p_free (String c s) = negb (Ascii.eqb c "p") && p_free s.
Proof. reflexivity. Qed.

Lemma lstrip_p_free (s rest : string) :
  s <> "" -> p_free s = true -> Py.lstrip "p" (s ++ rest) = s ++ rest.
Proof.
  destruct s as [| c s]; intros Hne Hfree; [contradiction Hne; reflexivity |].
  rewrite p_free_cons in Hfree. apply andb_true_iff in Hfree.
  destruct Hfree as [Hc _]. apply negb_true_iff in Hc.
  simpl. rewrite char_in_p, Hc. reflexivity.
Qed.

Lemma rstrip_p_free (s : string) : p_free s = true -> Py.rstrip "p" s = s.
Proof.
  induction s as [| c s IH]; intros Hfree; [reflexivity |].
  rewrite p_free_cons in Hfree. apply andb_true_iff in Hfree.
  destruct Hfree as [Hc Hs]. apply negb_true_iff in Hc.
  simpl. rewrite (IH Hs), char_in_p, Hc. destruct s; reflexivity.
Qed.

Lemma rstrip_app (chars s t : string) :
  Py.rstrip chars t <> "" -> Py.rstrip chars (s ++ t) = s ++ Py.rstrip chars t.
Proof.
  intros Hne. induction s as [| c s IH]; [reflexivity |].
  simpl. rewrite IH.
  destruct (s ++ Py.rstrip chars t) eqn:Happ; [| reflexivity].
  destruct s; simpl in Happ; [contradiction | discriminate].
Qed.

Lemma split_p_free (s : string) : p_free s = true -> Py.split "p" s = [s].
Proof.
  induction s as [| c s IH]; intros Hfree; [reflexivity |].
  rewrite p_free_cons in Hfree. apply andb_true_iff in Hfree.
  destruct Hfree as [Hc Hs]. apply negb_true_iff in Hc.
  simpl. rewrite Hc, (IH Hs). reflexivity.
Qed.

Lemma split_at_p (s t : string) :
  p_free s = true -> Py.split "p" (s ++ String "p" t) = s :: Py.split "p" t.
Proof.
  induction s as [| c s IH]; intros Hfree; [reflexivity |].
  rewrite p_free_cons in Hfree. apply andb_true_iff in Hfree.
  destruct Hfree as [Hc Hs]. apply negb_true_iff in Hc.
  simpl. rewrite Hc, (IH Hs). reflexivity.
Qed.

(** C8. For a well-formed label [p<a>p<b>], one whose components [a]
    and [b] are numeric and, as every string the built-in [float]
    accepts, are not empty and hold no "p", [parse_percentile] is the
    function of the label that strips the leading "p", splits the rest
    at its one "p" into [a] and [b], and returns the pair
    [(float(a), float(b))]. *)
Theorem parse_percentile_well_formed (py_float : string -> option float)
    (a b : string) (fa fb : float) :
  a <> "" -> b <> "" -> p_free a = true -> p_free b = true ->
  py_float a = Some fa -> py_float b = Some fb ->
  Py.strip "p" ("p" ++ a ++ "p" ++ b) = a ++ "p" ++ b
  /\ Py.split "p" (a ++ "p" ++ b) = [a; b]
  /\ parse_percentile py_float ("p" ++ a ++ "p" ++ b) = Ok [fa; fb].
Proof.
  intros Ha Hb Hfa Hfb Hpa Hpb.
  assert (Hstrip : Py.strip "p" ("p" ++ a ++ "p" ++ b) = a ++ "p" ++ b).
  { unfold Py.strip. change ("p" ++ a ++ "p" ++ b) with (String "p" (a ++ "p" ++ b)).
    cbn [Py.lstrip]. rewrite char_in_p. cbn [Ascii.eqb Bool.eqb].
    rewrite (lstrip_p_free a _ Ha Hfa).
    assert (Hrb : Py.rstrip "p" b = b) by (apply rstrip_p_free; exact Hfb).
    assert (Hrpb : Py.rstrip "p" ("p" ++ b) = "p" ++ b).
    { change ("p" ++ b) with (String "p" b). cbn [Py.rstrip]. rewrite Hrb.
      destruct b; [contradiction Hb; reflexivity | reflexivity]. }
    rewrite rstrip_app; rewrite Hrpb; [reflexivity | discriminate]. }
  assert (Hsplit : Py.split "p" (a ++ "p" ++ b) = [a; b]).
  { change ("p" ++ b) with (String "p" b).
    rewrite (split_at_p a b Hfa), (split_p_free b Hfb). reflexivity. }
  split; [exact Hstrip |]. split; [exact Hsplit |].
  unfold parse_percentile. rewrite Hstrip, Hsplit.
  cbn [Py.mapM]. unfold float_or_raise. rewrite Hpa, Hpb. reflexivity.
Qed.

Lemma parse_percentile_well_formed_witness :
  Py.strip "p" ("p" ++ "50" ++ "p" ++ "90") = "50" ++ "p" ++ "90"
  /\ Py.split "p" ("50" ++ "p" ++ "90") = ["50"; "90"]
  /\ parse_percentile Py.float_of_decimal ("p" ++ "50" ++ "p" ++ "90")
     = Ok [50%float; 90%float].
Proof.
  apply (parse_percentile_well_formed Py.float_of_decimal "50" "90" 50 90);
    solve [discriminate | vm_compute; reflexivity].
Defined.

Lemma mapM_float_Ok (py_float : string -> option float) (pieces : list string)
    (t : list float) :
  Py.mapM (float_or_raise py_float) pieces = Ok t ->
  List.length t = List.length pieces
  /\ forall piece, In piece pieces -> py_float piece <> None.
Proof.
  revert t. induction pieces as [| piece pieces IH]; intros t H; simpl in H.
  - injection H as <-. split; [reflexivity | intros piece []].
  - unfold float_or_raise at 1 in H.
    destruct (py_float piece) as [v |] eqn:Hv; [| discriminate H]. simpl in H.
    destruct (Py.mapM (float_or_raise py_float) pieces) as [vs | e];
      [| discriminate H].
    injection H as <-. destruct (IH vs eq_refl) as [Hlen Hall]. split.
    + simpl. rewrite Hlen. reflexivity.
    + intros piece' [<- | Hin]; [rewrite Hv; discriminate | apply Hall; exact Hin].
Qed.

Lemma mapM_float_Raise (py_float : string -> option float) (pieces : list string)
    (e : exn) :
  Py.mapM (float_or_raise py_float) pieces = Raise e ->
  e = ValueError /\ exists piece, In piece pieces /\ py_float piece = None.
Proof.
  induction pieces as [| piece pieces IH]; intros H; simpl in H.
  - discriminate H.
  - unfold float_or_raise at 1 in H.
    destruct (py_float piece) as [v |] eqn:Hv; simpl in H.
    + destruct (Py.mapM (float_or_raise py_float) pieces) as [vs | e'];
        [discriminate H |].
      injection H as <-. destruct (IH eq_refl) as [He [piece' [Hin Hnone]]].
      split; [exact He |]. exists piece'. split; [right; exact Hin | exact Hnone].
    + injection H as <-. split; [reflexivity |].
      exists piece. split; [left; reflexivity | exact Hv].
Qed.

Lemma split_length (sep : ascii) (s : string) :
  List.length (Py.split sep s) = S (count_char sep s).
Proof.
  induction s as [| c s IH]; [reflexivity |].
  cbn [Py.split count_char]. destruct (Ascii.eqb c sep).
  - cbn [List.length]. rewrite IH. reflexivity.
  - destruct (Py.split sep s) as [| piece pieces]; [discriminate IH | exact IH].
Qed.

Lemma components_length (x : string) :
  List.length (components x) = S (separators x).
Proof. apply split_length. Qed.

(** C2, as the code has it. The components of a label are the pieces of
    the label, stripped of every leading and trailing "p", between the
    "p"s that remain: one more than there are internal separators.
    [parse_percentile] raises exactly when one of the components is not
    numeric, and what it raises is the [ValueError] of [float]. An empty
    component is not numeric, [float] rejecting the empty string, so a
    label with an empty component raises: the empty label, "p" and
    "p1pp2" do. The number of separators is not checked: when every
    component is numeric the result has one float per component, so a
    label with no internal separator gives a tuple of one float and a
    label with more than one gives a tuple of three or more. *)
Theorem parse_percentile_failure (py_float : string -> option float) (x : string) :
  ((exists piece, In piece (components x) /\ py_float piece = None)
   <-> parse_percentile py_float x = Raise ValueError)
  /\ (forall e, parse_percentile py_float x = Raise e -> e = ValueError)
  /\ List.length (components x) = S (separators x)
  /\ ((forall piece, In piece (components x) -> py_float piece <> None)
      <-> exists t, parse_percentile py_float x = Ok t
                    /\ List.length t = S (separators x))
  /\ (forall t, parse_percentile py_float x = Ok t ->
        List.length t = S (separators x)
        /\ (separators x = 0%nat -> exists lower, t = [lower])
        /\ ((1 < separators x)%nat -> (3 <= List.length t)%nat))
  /\ (py_float "" = None ->
      (In "" (components x) -> parse_percentile py_float x = Raise ValueError)
      /\ parse_percentile py_float "" = Raise ValueError
      /\ parse_percentile py_float "p" = Raise ValueError
      /\ parse_percentile py_float "p1pp2" = Raise ValueError).
Proof.
  pose proof (components_length x) as Hcomponents.
  assert (Hcases :
    ((exists piece, In piece (components x) /\ py_float piece = None)
     <-> parse_percentile py_float x = Raise ValueError)
    /\ (forall e, parse_percentile py_float x = Raise e -> e = ValueError)
    /\ ((forall piece, In piece (components x) -> py_float piece <> None)
        <-> exists t, parse_percentile py_float x = Ok t
                      /\ List.length t = S (separators x))
    /\ (forall t, parse_percentile py_float x = Ok t ->
          List.length t = S (separators x))).
  { unfold parse_percentile. fold (components x).
    destruct (Py.mapM (float_or_raise py_float) (components x)) as [t | e] eqn:Hm.
    - destruct (mapM_float_Ok _ _ _ Hm) as [Hlen Hall].
      rewrite Hcomponents in Hlen. split; [| split; [| split]].
      + split; [| discriminate].
        intros [piece [Hin Hnone]]. contradiction (Hall piece Hin).
      + discriminate.
      + split; [| intros _; exact Hall].
        intros _. exists t. split; [reflexivity | exact Hlen].
      + intros t' H. injection H as <-. exact Hlen.
    - destruct (mapM_float_Raise _ _ _ Hm) as [-> Hex]. split; [| split; [| split]].
      + split; [reflexivity | intros _; exact Hex].
      + intros e H. injection H as <-. reflexivity.
      + split; [| intros [t [H _]]; discriminate H].
        intros Hall. destruct Hex as [piece [Hin Hnone]].
        contradiction (Hall piece Hin).
      + discriminate. }
  destruct Hcases as (Hraise & Honly & Hreturn & Hlength).
  split; [exact Hraise |]. split; [exact Honly |]. split; [exact Hcomponents |].
  split; [exact Hreturn |]. split.
  - intros t Ht. pose proof (Hlength t Ht) as Hlen.
    split; [exact Hlen |]. split.
    + intros Hzero. rewrite Hzero in Hlen.
      destruct t as [| lower [| upper t]]; try discriminate Hlen.
      exists lower. reflexivity.
    + intros Hmany. lia.
  - intros Hempty. split; [| split; [| split]].
    + intros Hin. apply Hraise. exists "". split; [exact Hin | exact Hempty].
    + unfold parse_percentile. cbn [Py.strip Py.lstrip Py.rstrip Py.split Py.mapM].
      unfold float_or_raise. rewrite Hempty. reflexivity.
    + unfold parse_percentile.
      change (Py.split "p" (Py.strip "p" "p")) with [""].
      cbn [Py.mapM]. unfold float_or_raise. rewrite Hempty. reflexivity.
    + unfold parse_percentile.
      change (Py.split "p" (Py.strip "p" "p1pp2")) with ["1"; ""; "2"].
      cbn [Py.mapM]. unfold float_or_raise. rewrite Hempty.
      destruct (py_float "1"); reflexivity.
Qed.

Lemma parse_percentile_failure_witness :
  parse_percentile Py.float_of_decimal "" = Raise ValueError
  /\ parse_percentile Py.float_of_decimal "p" = Raise ValueError
  /\ parse_percentile Py.float_of_decimal "p1pp2" = Raise ValueError
  /\ parse_percentile Py.float_of_decimal "p7pp8" = Raise ValueError
  /\ (forall t, parse_percentile Py.float_of_decimal "p1p2p3" = Ok t ->
        List.length t = 3%nat).
Proof.
  destruct (parse_percentile_failure Py.float_of_decimal "p7pp8")
    as (_ & _ & _ & _ & _ & Hempty).
  destruct (Hempty eq_refl) as (Hcomponent & Hnone & Hp & Hpp).
  destruct (parse_percentile_failure Py.float_of_decimal "p1p2p3")
    as (_ & _ & _ & _ & Hlength & _).
  split; [exact Hnone |]. split; [exact Hp |]. split; [exact Hpp |].
  split; [apply Hcomponent; right; left; reflexivity |].
  intros t Ht. apply (Hlength t Ht).
Defined.

(** C2, as stated, fails: a label with no internal "p" and a label with
    two of them are parsed, into a tuple of one float and a tuple of
    three, so a label whose components are not two does not always
    raise. *)
Lemma parse_percentile_arity_unchecked :
  parse_percentile Py.float_of_decimal "p50" = Ok [50%float]
  /\ parse_percentile Py.float_of_decimal "p1p2p3" = Ok [1%float; 2%float; 3%float]
  /\ ~ (forall x, List.length (components x) <> 2%nat ->
                  exists e, parse_percentile Py.float_of_decimal x = Raise e).
Proof.
  split; [vm_compute; reflexivity |]. split; [vm_compute; reflexivity |].
  intros Hclaim. destruct (Hclaim "p50") as [e He].
  - vm_compute. discriminate.
  - vm_compute in He. discriminate He.
Qed.

(** ** [prepare_summary_data] *)

Section SummaryProperties.

Variable get_official_languages : string -> list string.
Variable Locale_parse : string -> option string.
Variable format_compact_currency : Z -> string -> string -> string.

Local Abbreviation record :=
  (summary_record get_official_languages Locale_parse format_compact_currency).
Local Abbreviation loop :=
  (summary_loop get_official_languages Locale_parse format_compact_currency).
Local Abbreviation summary :=
  (prepare_summary_data get_official_languages Locale_parse format_compact_currency).

Lemma summary_record_missing (df : list NumericRow) (currency country_code : string)
    (rate cutoff : float) (label : string) :
  values_at df cutoff = [] ->
  record df currency country_code rate cutoff label = Raise IndexError.
Proof.
  intros Hmiss. unfold summary_record. rewrite Hmiss. reflexivity.
Qed.

(** A cutoff without a row ends the loop with an exception. *)
Lemma summary_loop_missing (df : list NumericRow) (currency country_code : string)
    (rate : float) (cutoffs : list (float * string)) (records : list SummaryRecord)
    (cutoff : float) (label : string) :
  In (cutoff, label) cutoffs ->
  values_at df cutoff = [] ->
  exists e, loop df currency country_code rate cutoffs records = Raise e.
Proof.
  intros Hin Hmiss. revert records.
  induction cutoffs as [| [c l] cutoffs IH]; intros records; [contradiction Hin |].
  cbn [summary_loop].
  destruct Hin as [Heq | Hin].
  - injection Heq as -> ->.
    rewrite (summary_record_missing _ _ _ _ _ _ Hmiss).
    exists IndexError. reflexivity.
  - destruct (summary_record _ _ _ df currency country_code rate c l) as [r | e].
    + cbn [Py.bind]. apply IH. exact Hin.
    + exists e. reflexivity.
Qed.


(** C1, as the code has it. On the frame of the ten cutoffs with the
    native values 1, 5, 10, 50, 90, 95, 99, 999, 9999, 99999 and the
    rate 2, [prepare_summary_data] returns ten records in cutoff
    order whose reference-currency values are 0, 2, 5, 25, 45, 48, 50,
    500, 5000, 50000: the native value divided by the rate and rounded
    to the nearest integer, a tie going to the even one (2.5 to 2 as
    0.5 to 0), each with the label [get_afford] gives that value. *)
Theorem prepare_summary_data_example (m : MetaRow) (ms : list MetaRow)
    (country_code : string) :
  Py.fmap (map reference_view)
          (summary example_frame (m :: ms) country_code 2)
  = Ok [ ("Bottom 1%", 0, get_afford 0);
         ("Bottom 5%", 2, get_afford 2);
         ("Bottom 10%", 5, get_afford 5);
         ("Middle 50%", 25, get_afford 25);
         ("Top 10%", 45, get_afford 45);
         ("Top 5%", 48, get_afford 48);
         ("Top 1%", 50, get_afford 50);
         ("Top 0.1%", 500, get_afford 500);
         ("Top 0.01%", 5000, get_afford 5000);
         ("Top 0.001%", 50000, get_afford 50000) ]
  /\ map (to_reference 2) (map num_value example_frame)
     = map Ok [0; 2; 5; 25; 45; 48; 50; 500; 5000; 50000].
Proof.
  split; vm_compute; reflexivity.
Qed.

End SummaryProperties.



(** C1, as stated, fails: the second value is 2, not 3, since [round]
    sends the tie 5 / 2 = 2.5 to the even integer. *)
Lemma prepare_summary_data_example_values :
  Py.fmap (map value_usd)
          (prepare_summary_data Standin.get_official_languages Standin.Locale_parse
             Standin.format_compact_currency example_frame example_meta "IN" 2)
  = Ok [0; 2; 5; 25; 45; 48; 50; 500; 5000; 50000]
  /\ Py.fmap (map value_usd)
             (prepare_summary_data Standin.get_official_languages Standin.Locale_parse
                Standin.format_compact_currency example_frame example_meta "IN" 2)
     <> Ok [0; 3; 5; 25; 45; 48; 50; 500; 5000; 50000]
  /\ Py.round (PrimFloat.div 5 2) = Ok 2.
Proof.
  split; [vm_compute; reflexivity |]. split; [| vm_compute; reflexivity].
  vm_compute. discriminate.
Qed.

(** ** Further properties *)

(** A group name outside the catalog is a [KeyError] as soon as one row
    has the requested variable and year. *)
Theorem filter_data_unknown_group (df : list Observation) (variable : string)
    (year : Z) (group_name : string) :
  Py.getitem get_income_groups group_name = Raise KeyError ->
  (exists r, In r df /\ col_variable r = variable /\ col_year r = year) ->
  filter_data df variable year group_name = Raise KeyError.
Proof.
  intros Hg [r [Hin [Hv Hy]]]. unfold filter_data.
  rewrite !boolean_index_map, filter_twice.
  destruct (filter _ df) as [| r0 rest] eqn:Hcand.
  - assert (Hr : In r (filter
        (fun x => String.eqb (col_variable x) variable && Z.eqb (col_year x) year) df)).
    { apply filter_In. split; [exact Hin |].
      apply andb_true_iff. split; [apply String.eqb_eq | apply Z.eqb_eq]; assumption. }
    rewrite Hcand in Hr. contradiction Hr.
  - cbn [Py.mapM]. rewrite Hg. reflexivity.
Qed.

Lemma filter_data_unknown_group_witness :
  filter_data sample_observations "aptincj992" 2021 "no_such_group" = Raise KeyError.
Proof.
  apply (filter_data_unknown_group sample_observations "aptincj992" 2021 "no_such_group").
  - reflexivity.
  - exists (mkObservation "aptincj992" 2021 "p0p50" 1200).
    split; [left; reflexivity | split; reflexivity].
Defined.

Lemma count_below_monotone (bounds : list Z) (n m : Z) :
  n <= m ->
  Nat.le (List.length (filter (fun b => b <=? n) bounds))
         (List.length (filter (fun b => b <=? m) bounds)).
Proof.
  intros Hnm. unfold Nat.le.
  induction bounds as [| b bounds IH]; simpl; [lia |].
  destruct (b <=? n) eqn:Hn.
  - apply Z.leb_le in Hn.
    assert (Hm : (b <=? m) = true) by (apply Z.leb_le; lia).
    rewrite Hm. simpl. lia.
  - destruct (b <=? m); simpl; lia.
Qed.

Lemma filter_leb_none (bounds : list Z) (n : Z) :
  Forall (fun b => n < b) bounds -> filter (fun b => b <=? n) bounds = [].
Proof.
  intros Hall. apply filter_none. intros b Hb.
  rewrite Forall_forall in Hall. apply Z.leb_gt. apply Hall. exact Hb.
Qed.

Lemma table_label_In (table : list (Z * string)) (n : Z) :
  In (table_label table n) (map snd table ++ [catch_all_label])%list.
Proof.
  induction table as [| [b l] table IH]; unfold table_label; simpl.
  - left. reflexivity.
  - destruct (n <? b); [left; reflexivity | right; exact IH].
Qed.

(** In a table with ascending bounds and distinct labels, the rank of
    the label of [n] is the number of bounds that [n] has reached. *)
Lemma index_of_table_label (table : list (Z * string)) (n : Z) :
  StronglySorted Z.lt (map fst table) ->
  NoDup (map snd table ++ [catch_all_label])%list ->
  index_of (table_label table n) (map snd table ++ [catch_all_label])%list
  = List.length (filter (fun b => b <=? n) (map fst table)).
Proof.
  induction table as [| [b l] table IH]; intros Hsorted Hdistinct.
  - unfold table_label. cbn [find map app index_of filter List.length].
    rewrite String.eqb_refl. reflexivity.
  - simpl in Hsorted, Hdistinct.
    apply StronglySorted_inv in Hsorted. destruct Hsorted as [Hsorted Hb].
    apply NoDup_cons_iff in Hdistinct. destruct Hdistinct as [Hl Hdistinct].
    unfold table_label. simpl. destruct (n <? b) eqn:Hlt.
    + apply Z.ltb_lt in Hlt. simpl. rewrite String.eqb_refl.
      assert (Hbn : (b <=? n) = false) by (apply Z.leb_gt; exact Hlt).
      rewrite Hbn, filter_leb_none; [reflexivity |].
      apply Forall_impl with (2 := Hb). intros b' Hb'. lia.
    + apply Z.ltb_ge in Hlt. fold (table_label table n).
      assert (Hbn : (b <=? n) = true) by (apply Z.leb_le; exact Hlt).
      rewrite Hbn. simpl.
      destruct (String.eqb l (table_label table n)) eqn:Heq.
      * apply String.eqb_eq in Heq. subst l.
        contradiction Hl. apply table_label_In.
      * rewrite (IH Hsorted Hdistinct). reflexivity.
Qed.

Lemma afford_table_sorted : StronglySorted Z.lt (map fst afford_table).
Proof.
  apply Sorted_StronglySorted; [exact Z.lt_trans |].
  unfold afford_table. simpl. repeat constructor.
Qed.

Lemma afford_table_positive : Forall (fun b => 0 < b) (map fst afford_table).
Proof.
  unfold afford_table. cbn [map fst].
  repeat (constructor; [reflexivity |]). constructor.
Qed.

(** The same count with a first bucket for the amounts [<= 0]. *)
Lemma rank_counts (table : list (Z * string)) (first_label : string) (n : Z) :
  StronglySorted Z.lt (map fst table) ->
  Forall (fun b => 0 < b) (map fst table) ->
  NoDup (first_label :: map snd table ++ [catch_all_label])%list ->
  index_of (if n <=? 0 then first_label else table_label table n)
           (first_label :: map snd table ++ [catch_all_label])%list
  = List.length (filter (fun b => b <=? n) (1 :: map fst table)).
Proof.
  intros Hsorted Hpositive Hdistinct.
  apply NoDup_cons_iff in Hdistinct. destruct Hdistinct as [Hfirst Hdistinct].
  cbn [filter index_of]. destruct (n <=? 0) eqn:Hn.
  - apply Z.leb_le in Hn. rewrite String.eqb_refl.
    assert (H1 : (1 <=? n) = false) by (apply Z.leb_gt; lia).
    rewrite H1, filter_leb_none; [reflexivity |].
    apply Forall_impl with (2 := Hpositive). intros b Hb. lia.
  - apply Z.leb_gt in Hn.
    assert (H1 : (1 <=? n) = true) by (apply Z.leb_le; lia).
    rewrite H1. cbn [List.length].
    destruct (String.eqb first_label (table_label table n)) eqn:Heq.
    + apply String.eqb_eq in Heq. contradiction Hfirst.
      rewrite Heq. apply table_label_In.
    + rewrite (index_of_table_label table n Hsorted Hdistinct). reflexivity.
Qed.

Lemma get_afford_cases (n : Z) :
  get_afford n = if n <=? 0 then sentinel_label else label_above n.
Proof.
  destruct (n <=? 0) eqn:Hn.
  - apply get_afford_nonpositive. apply Z.leb_le. exact Hn.
  - apply get_afford_positive. apply Z.leb_gt. exact Hn.
Qed.

(** The severity of the label of [n] counts the thresholds that [n]
    has reached: 1 for leaving the sentinel bucket, then the bounds. *)
Lemma severity_counts (n : Z) :
  severity (get_afford n)
  = List.length (filter (fun b => b <=? n) (1 :: map fst afford_table)).
Proof.
  rewrite get_afford_cases. unfold severity, afford_labels, label_above.
  apply rank_counts.
  - exact afford_table_sorted.
  - exact afford_table_positive.
  - exact afford_labels_distinct.
Qed.

(** The label never moves to a lower bucket when the amount grows. *)
Theorem get_afford_monotone (n m : Z) :
  n <= m -> (severity (get_afford n) <= severity (get_afford m))%nat.
Proof.
  intros Hnm. rewrite !severity_counts. apply count_below_monotone. exact Hnm.
Qed.

Lemma get_afford_monotone_witness :
  (severity (get_afford 99) <= severity (get_afford 100))%nat.
Proof.
  apply (get_afford_monotone 99 100). lia.
Defined.

(** ** More on [filter_data] *)

Lemma getitem_Raise {V : Type} (d : Py.dict V) (k : string) (e : exn) :
  Py.getitem d k = Raise e -> e = KeyError.
Proof.
  induction d as [| [k' v'] d IH]; simpl; intros H.
  - injection H as <-. reflexivity.
  - destruct (String.eqb k' k); [discriminate H | apply IH; exact H].
Qed.

(** The rows that pass the first two masks. *)
Lemma filter_data_cases (df : list Observation) (variable : string) (year : Z)
    (group_name : string) :
  filter_data df variable year group_name
  = match Py.getitem get_income_groups group_name with
    | Ok labels => Ok (filter (selected variable year labels) df)
    | Raise e =>
        match filter (fun r => String.eqb (col_variable r) variable
                               && Z.eqb (col_year r) year) df with
        | [] => Ok []
        | _ :: _ => Raise e
        end
    end.
Proof.
  destruct (Py.getitem get_income_groups group_name) as [labels | e] eqn:Hg.
  - apply filter_data_catalog. exact Hg.
  - destruct (filter _ df) as [| r rest] eqn:Hcand.
    + apply filter_data_no_candidate. exact Hcand.
    + unfold filter_data. rewrite !boolean_index_map, filter_twice, Hcand.
      cbn [Py.mapM]. rewrite Hg. reflexivity.
Qed.

(** [filter_data] raises nothing but [KeyError], and only for a group
    name that is not in the catalog when some row has the requested
    variable and year. *)
Theorem filter_data_raises (df : list Observation) (variable : string) (year : Z)
    (group_name : string) (e : exn) :
  filter_data df variable year group_name = Raise e ->
  e = KeyError
  /\ Py.getitem get_income_groups group_name = Raise KeyError
  /\ exists r, In r df /\ col_variable r = variable /\ col_year r = year.
Proof.
  rewrite filter_data_cases.
  destruct (Py.getitem get_income_groups group_name) as [labels | e'] eqn:Hg;
    [discriminate |].
  destruct (filter _ df) as [| r rest] eqn:Hcand; [discriminate |].
  intros H. injection H as <-. pose proof (getitem_Raise _ _ _ Hg) as ->.
  split; [reflexivity |]. split; [reflexivity |].
  assert (Hr : In r (filter (fun r => String.eqb (col_variable r) variable
                                      && Z.eqb (col_year r) year) df))
    by (rewrite Hcand; left; reflexivity).
  apply filter_In in Hr. destruct Hr as [Hin Hsel].
  apply andb_true_iff in Hsel. destruct Hsel as [Hv Hy].
  exists r. split; [exact Hin |].
  split; [apply String.eqb_eq; exact Hv | apply Z.eqb_eq; exact Hy].
Qed.

Lemma filter_data_raises_witness :
  KeyError = KeyError
  /\ Py.getitem get_income_groups "deciles" = Raise KeyError
  /\ exists r, In r sample_observations /\ col_variable r = "aptincj992"
               /\ col_year r = 2020.
Proof.
  apply (filter_data_raises sample_observations "aptincj992" 2020 "deciles" KeyError).
  vm_compute. reflexivity.
Defined.

Lemma filter_idempotent {A : Type} (p : A -> bool) (l : list A) :
  filter p (filter p l) = filter p l.
Proof.
  rewrite filter_twice. apply filter_ext. intros x. apply andb_diag.
Qed.

(** Filtering a frame with at least one row that [filter_data] returned,
    with the same variable, year and group name, returns it unchanged. *)
Theorem filter_data_idempotent (df : list Observation) (o : Observation)
    (out : list Observation) (variable : string) (year : Z) (group_name : string) :
  filter_data df variable year group_name = Ok (o :: out) ->
  filter_data (o :: out) variable year group_name = Ok (o :: out).
Proof.
  rewrite !filter_data_cases.
  destruct (Py.getitem get_income_groups group_name) as [labels | e].
  - intros H. injection H as H. rewrite <- H, filter_idempotent. reflexivity.
  - destruct (filter _ df) as [| r rest]; discriminate.
Qed.

Lemma filter_data_idempotent_witness :
  filter_data
    [ mkObservation "aptincj992" 2021 "p0p50" 1200;
      mkObservation "aptincj992" 2021 "p90p100" 9100 ]%float
    "aptincj992" 2021 "key_groups"
  = Ok [ mkObservation "aptincj992" 2021 "p0p50" 1200;
         mkObservation "aptincj992" 2021 "p90p100" 9100 ]%float.
Proof.
  apply (filter_data_idempotent sample_observations _ _ "aptincj992" 2021 "key_groups").
  vm_compute. reflexivity.
Defined.

(** For a group name of the catalog the rows are judged one by one: the
    result on two frames put end to end is the two results put end to
    end. *)
Theorem filter_data_app (df1 df2 : list Observation) (variable : string)
    (year : Z) (group_name : string) (labels : list string) :
  Py.getitem get_income_groups group_name = Ok labels ->
  exists out1 out2,
    filter_data df1 variable year group_name = Ok out1
    /\ filter_data df2 variable year group_name = Ok out2
    /\ filter_data (df1 ++ df2)%list variable year group_name = Ok (out1 ++ out2)%list.
Proof.
  intros Hg. rewrite !filter_data_cases, Hg.
  do 2 eexists. split; [reflexivity |]. split; [reflexivity |].
  rewrite filter_app. reflexivity.
Qed.

Lemma filter_data_app_witness :
  exists out1 out2,
    filter_data (firstn 2 sample_observations) "aptincj992" 2021 "key_groups" = Ok out1
    /\ filter_data (skipn 2 sample_observations) "aptincj992" 2021 "key_groups" = Ok out2
    /\ filter_data (firstn 2 sample_observations ++ skipn 2 sample_observations)%list
         "aptincj992" 2021 "key_groups" = Ok (out1 ++ out2)%list.
Proof.
  exact (filter_data_app (firstn 2 sample_observations) (skipn 2 sample_observations)
           "aptincj992" 2021 "key_groups" key_group_labels eq_refl).
Defined.

(** ** More on [parse_percentile] *)

Lemma split_nonempty (sep : ascii) (s : string) : Py.split sep s <> [].
Proof.
  destruct s as [| c s]; simpl; [discriminate |].
  destruct (Ascii.eqb c sep); [discriminate |].
  destruct (Py.split sep s); discriminate.
Qed.

(** Whatever the label, a tuple that [parse_percentile] returns has a
    first element: the [x[0]] that [main] applies to it cannot raise. *)
Theorem parse_percentile_nonempty (py_float : string -> option float)
    (x : string) (t : list float) :
  parse_percentile py_float x = Ok t ->
  exists lower rest, t = lower :: rest /\ Py.first t = Ok lower.
Proof.
  unfold parse_percentile. intros H.
  destruct (mapM_float_Ok _ _ _ H) as [Hlen _].
  destruct t as [| lower rest].
  - destruct (Py.split "p" (Py.strip "p" x)) eqn:Hs; [| discriminate Hlen].
    contradiction (split_nonempty _ _ Hs).
  - exists lower, rest. split; reflexivity.
Qed.

Lemma parse_percentile_nonempty_witness :
  exists lower rest, [50%float] = lower :: rest /\ Py.first [50%float] = Ok lower.
Proof.
  apply (parse_percentile_nonempty Py.float_of_decimal "p50" [50%float]).
  vm_compute. reflexivity.
Defined.

Lemma rstrip_p_snoc (s : string) : Py.rstrip "p" (s ++ "p") = Py.rstrip "p" s.
Proof.
  induction s as [| c s IH]; [reflexivity |].
  cbn [append Py.rstrip]. rewrite IH. reflexivity.
Qed.

Lemma strip_p_snoc (s : string) : Py.strip "p" (s ++ "p") = Py.strip "p" s.
Proof.
  unfold Py.strip. induction s as [| c s IH]; [reflexivity |].
  cbn [append Py.lstrip]. destruct (Py.char_in c "p"); [exact IH |].
  apply (rstrip_p_snoc (String c s)).
Qed.

(** Any "p" in front of a label or behind it is dropped before the
    split: a label parses as the same label with one more "p" at
    either end. *)
Theorem parse_percentile_outer_p (py_float : string -> option float) (x : string) :
  parse_percentile py_float ("p" ++ x) = parse_percentile py_float x
  /\ parse_percentile py_float (x ++ "p") = parse_percentile py_float x.
Proof.
  unfold parse_percentile. split.
  - reflexivity.
  - rewrite strip_p_snoc. reflexivity.
Qed.

(** ** More on [get_income_groups] *)

Lemma mapM_parse_transfer (f g : string -> option float) (labels : list string)
    (bands : list (list float)) :
  (forall s v, f s = Some v -> g s = Some v) ->
  Py.mapM (parse_percentile f) labels = Ok bands ->
  Py.mapM (parse_percentile g) labels = Ok bands.
Proof.
  intros Hfg. revert bands.
  induction labels as [| label labels IH]; intros bands H; [exact H |].
  cbn [Py.mapM] in H |- *.
  destruct (parse_percentile f label) as [t | e] eqn:Ht; [| discriminate H].
  rewrite (parse_percentile_transfer f g label t Hfg Ht).
  cbn [Py.bind] in H |- *.
  destruct (Py.mapM (parse_percentile f) labels) as [ts | e]; [| discriminate H].
  rewrite (IH ts eq_refl). exact H.
Qed.

Lemma detailed_bands_checked :
  match Py.mapM (parse_percentile Py.float_of_decimal) detailed_p_labels with
  | Ok bands => tiles 0 100 bands
  | Raise _ => false
  end = true.
Proof. vm_compute. reflexivity. Qed.

Lemma decile_bands_checked :
  match Py.mapM (parse_percentile Py.float_of_decimal) (skipn 6 key_group_labels) with
  | Ok bands => tiles 0 100 bands
  | Raise _ => false
  end = true.
Proof. vm_compute. reflexivity. Qed.

Section CatalogTiling.

Variable py_float : string -> option float.
Hypothesis py_float_decimal :
  forall s v, Py.float_of_decimal s = Some v -> py_float s = Some v.

(** The 127 bands of [detailed_p_groups], in the order of the list, cover
    the range from 0 to 100 without gap or overlap: the first starts at
    0, each next one starts where the one before ends, and the last ends
    at 100. So do the ten decile bands that close [key_groups]. *)
Theorem catalog_bands_tile :
  Py.getitem get_income_groups "detailed_p_groups" = Ok detailed_p_labels
  /\ (exists bands,
        Py.mapM (parse_percentile py_float) detailed_p_labels = Ok bands
        /\ tiles 0 100 bands = true)
  /\ Py.getitem get_income_groups "key_groups" = Ok key_group_labels
  /\ (exists bands,
        Py.mapM (parse_percentile py_float) (skipn 6 key_group_labels) = Ok bands
        /\ tiles 0 100 bands = true).
Proof.
  split; [vm_compute; reflexivity |]. split; [| split; [vm_compute; reflexivity |]].
  - pose proof detailed_bands_checked as H.
    destruct (Py.mapM (parse_percentile Py.float_of_decimal) detailed_p_labels)
      as [bands | e] eqn:Hbands; [| discriminate H].
    exists bands. split; [| exact H].
    apply (mapM_parse_transfer Py.float_of_decimal); assumption.
  - pose proof decile_bands_checked as H.
    destruct (Py.mapM (parse_percentile Py.float_of_decimal) (skipn 6 key_group_labels))
      as [bands | e] eqn:Hbands; [| discriminate H].
    exists bands. split; [| exact H].
    apply (mapM_parse_transfer Py.float_of_decimal); assumption.
Qed.

End CatalogTiling.

Lemma catalog_bands_tile_witness :
  Py.getitem get_income_groups "detailed_p_groups" = Ok detailed_p_labels
  /\ (exists bands,
        Py.mapM (parse_percentile Py.float_of_decimal) detailed_p_labels = Ok bands
        /\ tiles 0 100 bands = true)
  /\ Py.getitem get_income_groups "key_groups" = Ok key_group_labels
  /\ (exists bands,
        Py.mapM (parse_percentile Py.float_of_decimal) (skipn 6 key_group_labels)
        = Ok bands
        /\ tiles 0 100 bands = true).
Proof.
  exact (catalog_bands_tile Py.float_of_decimal (fun s v H => H)).
Defined.

(** ** More on [get_afford] *)

Lemma index_of_injective (x y : string) (l : list string) :
  In x l -> In y l -> index_of x l = index_of y l -> x = y.
Proof.
  induction l as [| z l IH]; intros Hx Hy Heq; [contradiction Hx |].
  cbn [index_of] in Heq.
  destruct (String.eqb z x) eqn:Hzx; destruct (String.eqb z y) eqn:Hzy.
  - apply String.eqb_eq in Hzx, Hzy. congruence.
  - discriminate Heq.
  - discriminate Heq.
  - apply String.eqb_neq in Hzx, Hzy.
    destruct Hx as [Hx | Hx]; [contradiction |].
    destruct Hy as [Hy | Hy]; [contradiction |].
    apply IH; [exact Hx | exact Hy |]. injection Heq as Heq. exact Heq.
Qed.

Lemma get_afford_In (n : Z) : In (get_afford n) afford_labels.
Proof.
  rewrite get_afford_cases. unfold afford_labels, label_above.
  destruct (n <=? 0); [left; reflexivity | right; apply table_label_In].
Qed.

Lemma count_equal_reached (bounds : list Z) (n m : Z) :
  n <= m ->
  List.length (filter (fun b => b <=? n) bounds)
  = List.length (filter (fun b => b <=? m) bounds) ->
  forall b, In b bounds -> b <= m -> b <= n.
Proof.
  intros Hnm. induction bounds as [| b0 bounds IH]; intros Hlen b Hb Hbm;
    [contradiction Hb |].
  pose proof (count_below_monotone bounds n m Hnm) as Hmono. unfold Nat.le in Hmono.
  cbn [filter] in Hlen.
  destruct (b0 <=? n) eqn:Hn; destruct (b0 <=? m) eqn:Hm; cbn [List.length] in Hlen.
  - destruct Hb as [<- | Hb]; [apply Z.leb_le; exact Hn |].
    apply IH; [lia | exact Hb | exact Hbm].
  - apply Z.leb_le in Hn. apply Z.leb_gt in Hm. lia.
  - lia.
  - destruct Hb as [<- | Hb]; [apply Z.leb_gt in Hm; lia |].
    apply IH; [exact Hlen | exact Hb | exact Hbm].
Qed.

(** Two amounts get the same label exactly when they have reached the
    same thresholds (1, then the 39 bounds): no threshold lies above one
    of them and at or below the other. *)
Theorem get_afford_same_label (n m : Z) :
  get_afford n = get_afford m
  <-> (forall b, In b thresholds -> (b <= n <-> b <= m)).
Proof.
  split.
  - intros Heq.
    assert (Hcount : List.length (filter (fun b => b <=? n) thresholds)
                     = List.length (filter (fun b => b <=? m) thresholds)).
    { unfold thresholds. rewrite <- !severity_counts, Heq. reflexivity. }
    intros b Hb. destruct (Z.le_ge_cases n m) as [Hnm | Hmn].
    + split; [lia |]. apply (count_equal_reached thresholds n m Hnm Hcount b Hb).
    + split; [| lia].
      apply (count_equal_reached thresholds m n Hmn (eq_sym Hcount) b Hb).
  - intros Hsame.
    apply (index_of_injective _ _ afford_labels (get_afford_In n) (get_afford_In m)).
    fold (severity (get_afford n)). fold (severity (get_afford m)).
    rewrite !severity_counts. fold thresholds. f_equal.
    apply filter_ext_in. intros b Hb. specialize (Hsame b Hb).
    destruct (b <=? n) eqn:Hn; destruct (b <=? m) eqn:Hm; try reflexivity.
    + apply Z.leb_le in Hn. apply Z.leb_gt in Hm. lia.
    + apply Z.leb_gt in Hn. apply Z.leb_le in Hm. lia.
Qed.

(** ** More on [prepare_summary_data] *)

Section SummaryShape.

Variable get_official_languages : string -> list string.
Variable Locale_parse : string -> option string.
Variable format_compact_currency : Z -> string -> string -> string.

Local Abbreviation record :=
  (summary_record get_official_languages Locale_parse format_compact_currency).
Local Abbreviation loop :=
  (summary_loop get_official_languages Locale_parse format_compact_currency).
Local Abbreviation summary :=
  (prepare_summary_data get_official_languages Locale_parse format_compact_currency).

Lemma summary_record_Ok (df : list NumericRow) (currency country_code : string)
    (rate cutoff : float) (label : string) (r : SummaryRecord) :
  record df currency country_code rate cutoff label = Ok r ->
  percentile r = label
  /\ (exists v vs, values_at df cutoff = v :: vs
                   /\ to_reference rate v = Ok (value_usd r))
  /\ afford r = get_afford (value_usd r)
  /\ usd r = format_compact_currency (value_usd r) "USD" "en_US".
Proof.
  unfold summary_record.
  destruct (values_at df cutoff) as [| v vs]; [discriminate |].
  cbn [Py.first Py.bind].
  destruct (Py.int_of_float v) as [value | e] eqn:Hvalue; [| discriminate].
  cbn [Py.bind].
  destruct (Py.truediv value rate) as [q | e] eqn:Hq; [| discriminate].
  cbn [Py.bind].
  destruct (Py.round q) as [n | e] eqn:Hn; [| discriminate].
  cbn [Py.bind]. intros H. injection H as <-. cbn.
  split; [reflexivity |]. split; [| split; reflexivity].
  exists v, vs. split; [reflexivity |].
  unfold to_reference. rewrite Hvalue. cbn [Py.bind]. rewrite Hq. exact Hn.
Qed.

Lemma summary_loop_Ok (df : list NumericRow) (currency country_code : string)
    (rate : float) (cutoffs : list (float * string))
    (acc records : list SummaryRecord) :
  loop df currency country_code rate cutoffs acc = Ok records ->
  exists rs,
    records = (acc ++ rs)%list
    /\ Forall2 (fun cutoff r =>
                  record df currency country_code rate (fst cutoff) (snd cutoff) = Ok r)
               cutoffs rs.
Proof.
  revert acc. induction cutoffs as [| [c l] cutoffs IH]; intros acc H.
  - cbn [summary_loop] in H. injection H as <-. exists [].
    split; [symmetry; apply app_nil_r | constructor].
  - cbn [summary_loop] in H.
    destruct (summary_record _ _ _ df currency country_code rate c l) as [r | e] eqn:Hr;
      [| discriminate H].
    cbn [Py.bind] in H. destruct (IH _ H) as [rs [-> Hrs]].
    exists (r :: rs). split; [rewrite <- app_assoc; reflexivity |].
    constructor; [exact Hr | exact Hrs].
Qed.

(** A summary that [prepare_summary_data] returns has ten records, one
    per cutoff and in the order of the cutoffs: the record of a cutoff
    carries its label, the first value of the frame at that cutoff
    converted to the reference currency, the [get_afford] label of that
    amount and its formatting in USD. *)
Theorem prepare_summary_data_shape (df : list NumericRow) (var_meta : list MetaRow)
    (country_code : string) (conversion_rate : float)
    (records : list SummaryRecord) :
  summary df var_meta country_code conversion_rate = Ok records ->
  List.length records = 10%nat
  /\ map percentile records = map snd percentile_cutoffs
  /\ Forall2 (fun cutoff r =>
                exists v vs, values_at df (fst cutoff) = v :: vs
                             /\ to_reference conversion_rate v = Ok (value_usd r))
             percentile_cutoffs records
  /\ Forall (fun r => afford r = get_afford (value_usd r)
                      /\ usd r = format_compact_currency (value_usd r) "USD" "en_US")
            records.
Proof.
  unfold prepare_summary_data.
  destruct (Py.first (map meta_unit var_meta)) as [currency | e]; [| discriminate].
  cbn [Py.bind]. intros H.
  destruct (summary_loop_Ok _ _ _ _ _ _ _ H) as [rs [-> Hrs]]. cbn [app].
  assert (Hfields : Forall2 (fun cutoff r =>
            percentile r = snd cutoff
            /\ (exists v vs, values_at df (fst cutoff) = v :: vs
                             /\ to_reference conversion_rate v = Ok (value_usd r))
            /\ afford r = get_afford (value_usd r)
            /\ usd r = format_compact_currency (value_usd r) "USD" "en_US")
          percentile_cutoffs rs).
  { apply Forall2_impl with (2 := Hrs). intros cutoff r Hr.
    apply (summary_record_Ok _ _ _ _ _ _ _ Hr). }
  clear Hrs H. split; [| split; [| split]].
  - rewrite <- (Forall2_length Hfields). reflexivity.
  - induction Hfields as [| cutoff r cutoffs rs' Hr _ IH]; [reflexivity |].
    cbn [map]. rewrite IH. destruct Hr as [-> _]. reflexivity.
  - apply Forall2_impl with (2 := Hfields). intros cutoff r Hr. apply Hr.
  - induction Hfields as [| cutoff r cutoffs rs' Hr _ IH]; constructor;
      [split; apply Hr | exact IH].
Qed.

End SummaryShape.

Lemma prepare_summary_data_shape_witness :
  List.length example_summary = 10%nat
  /\ map percentile example_summary = map snd percentile_cutoffs
  /\ Forall2 (fun cutoff r =>
                exists v vs, values_at example_frame (fst cutoff) = v :: vs
                             /\ to_reference 2 v = Ok (value_usd r))
             percentile_cutoffs example_summary
  /\ Forall (fun r => afford r = get_afford (value_usd r)
                      /\ usd r = Standin.format_compact_currency (value_usd r)
                                   "USD" "en_US")
            example_summary.
Proof.
  apply (prepare_summary_data_shape Standin.get_official_languages
           Standin.Locale_parse Standin.format_compact_currency
           example_frame example_meta "IN" 2 example_summary).
  vm_compute. reflexivity.
Defined.

Section SummaryInputs.

Variable get_official_languages : string -> list string.
Variable Locale_parse : string -> option string.
Variable format_compact_currency : Z -> string -> string -> string.

Local Abbreviation record :=
  (summary_record get_official_languages Locale_parse format_compact_currency).
Local Abbreviation loop :=
  (summary_loop get_official_languages Locale_parse format_compact_currency).
Local Abbreviation summary :=
  (prepare_summary_data get_official_languages Locale_parse format_compact_currency).

Lemma summary_loop_same_first (df df' : list NumericRow)
    (currency country_code : string) (rate : float)
    (cutoffs : list (float * string)) (acc : list SummaryRecord) :
  (forall c l, In (c, l) cutoffs ->
               Py.first (values_at df c) = Py.first (values_at df' c)) ->
  loop df currency country_code rate cutoffs acc
  = loop df' currency country_code rate cutoffs acc.
Proof.
  revert acc. induction cutoffs as [| [c l] cutoffs IH]; intros acc Hsame;
    [reflexivity |].
  cbn [summary_loop].
  assert (Hr : record df currency country_code rate c l
               = record df' currency country_code rate c l).
  { unfold summary_record. rewrite (Hsame c l (or_introl eq_refl)). reflexivity. }
  rewrite Hr.
  destruct (summary_record _ _ _ df' currency country_code rate c l) as [r | e];
    [| reflexivity].
  cbn [Py.bind]. apply IH. intros c' l' Hin. apply (Hsame c' l'). right. exact Hin.
Qed.

(** The summary reads only the first row at each of the ten cutoffs: two
    frames that agree there give the same summary, or the same
    exception, whatever their other rows. *)
Theorem prepare_summary_data_first_rows (df df' : list NumericRow)
    (var_meta : list MetaRow) (country_code : string) (conversion_rate : float) :
  (forall c l, In (c, l) percentile_cutoffs ->
               Py.first (values_at df c) = Py.first (values_at df' c)) ->
  summary df var_meta country_code conversion_rate
  = summary df' var_meta country_code conversion_rate.
Proof.
  intros Hsame. unfold prepare_summary_data.
  destruct (Py.first (map meta_unit var_meta)) as [currency | e]; [| reflexivity].
  cbn [Py.bind]. apply summary_loop_same_first. exact Hsame.
Qed.

Lemma summary_record_zero_rate (df : list NumericRow) (currency country_code : string)
    (rate cutoff : float) (label : string) :
  PrimFloat.eqb rate 0 = true ->
  exists e, record df currency country_code rate cutoff label = Raise e.
Proof.
  intros Hzero. unfold summary_record.
  destruct (Py.first (values_at df cutoff)) as [v | e]; [| exists e; reflexivity].
  cbn [Py.bind].
  destruct (Py.int_of_float v) as [value | e]; [| exists e; reflexivity].
  cbn [Py.bind]. unfold Py.truediv.
  destruct (Py.float_of_int value) as [x | e]; [| exists e; reflexivity].
  cbn [Py.bind]. rewrite Hzero. exists ZeroDivisionError. reflexivity.
Qed.

(** A rate equal to zero never gives a summary: whatever the frame,
    [prepare_summary_data] raises. *)
Theorem prepare_summary_data_zero_rate (df : list NumericRow)
    (var_meta : list MetaRow) (country_code : string) (conversion_rate : float) :
  PrimFloat.eqb conversion_rate 0 = true ->
  exists e, summary df var_meta country_code conversion_rate = Raise e.
Proof.
  intros Hzero. unfold prepare_summary_data.
  destruct (Py.first (map meta_unit var_meta)) as [currency | e];
    [| exists e; reflexivity].
  cbn [Py.bind]. unfold percentile_cutoffs. cbn [summary_loop].
  destruct (summary_record_zero_rate df currency country_code conversion_rate
              1 "Bottom 1%" Hzero) as [e He].
  rewrite He. exists e. reflexivity.
Qed.

End SummaryInputs.

Lemma prepare_summary_data_first_rows_witness :
  prepare_summary_data Standin.get_official_languages Standin.Locale_parse
    Standin.format_compact_currency example_frame example_meta "IN" 2
  = prepare_summary_data Standin.get_official_languages Standin.Locale_parse
      Standin.format_compact_currency padded_frame example_meta "IN" 2.
Proof.
  apply (prepare_summary_data_first_rows Standin.get_official_languages
           Standin.Locale_parse Standin.format_compact_currency
           example_frame padded_frame example_meta "IN" 2).
  intros c l Hin. simpl in Hin.
  repeat (destruct Hin as [Heq | Hin];
          [injection Heq as <- _; vm_compute; reflexivity |]).
  contradiction Hin.
Defined.

Lemma prepare_summary_data_zero_rate_witness :
  exists e,
    prepare_summary_data Standin.get_official_languages Standin.Locale_parse
      Standin.format_compact_currency example_frame example_meta "IN" (-0)%float
    = Raise e.
Proof.
  apply (prepare_summary_data_zero_rate Standin.get_official_languages
           Standin.Locale_parse Standin.format_compact_currency
           example_frame example_meta "IN" (-0)%float).
  vm_compute. reflexivity.
Defined.

(** ** [format_variable] *)

Lemma meta_of_filter (meta : list MetaRow) (v : string) :
  meta_of meta v = filter (fun m => String.eqb (meta_variable m) v) meta.
Proof. apply boolean_index_map. Qed.

(** [format_variable] raises, and then [IndexError], exactly for a
    variable that no row of the metadata names; for a variable of the
    metadata it returns the five description cells of the first row
    that names it, separated by " | ". *)
Theorem format_variable_result (v : string) (meta : list MetaRow) :
  (~ In v (map meta_variable meta) -> format_variable v meta = Raise IndexError)
  /\ (In v (map meta_variable meta) ->
      exists row rest,
        meta_of meta v = row :: rest
        /\ In row meta /\ meta_variable row = v
        /\ format_variable v meta
           = Ok (meta_shortname row ++ " | " ++ meta_shorttype row ++ " | "
                 ++ meta_shortpop row ++ " | " ++ meta_shortage row ++ " | "
                 ++ meta_unit row)).
Proof.
  unfold format_variable. rewrite meta_of_filter. split.
  - intros Hnot. rewrite filter_none; [reflexivity |].
    intros m Hm. apply String.eqb_neq. intros Heq. apply Hnot.
    apply in_map_iff. exists m. split; [exact Heq | exact Hm].
  - intros Hin. apply in_map_iff in Hin. destruct Hin as [m [Hv Hm]].
    destruct (filter (fun m => String.eqb (meta_variable m) v) meta)
      as [| row rest] eqn:Hrows.
    + assert (Hin : In m (filter (fun m => String.eqb (meta_variable m) v) meta)).
      { apply filter_In. split; [exact Hm | apply String.eqb_eq; exact Hv]. }
      rewrite Hrows in Hin. contradiction Hin.
    + assert (Hrow : In row (filter (fun m => String.eqb (meta_variable m) v) meta))
        by (rewrite Hrows; left; reflexivity).
      apply filter_In in Hrow. destruct Hrow as [Hrow Heq].
      apply String.eqb_eq in Heq.
      exists row, rest. split; [reflexivity |]. split; [exact Hrow |].
      split; [exact Heq | reflexivity].
Qed.

Lemma format_variable_result_witness :
  format_variable "ahwealj992" example_meta = Raise IndexError
  /\ format_variable "aptincj992" example_meta
     = Ok "Pre-tax national income | Average | equal-split adults | Adults | INR".
Proof.
  destruct (format_variable_result "ahwealj992" example_meta) as [Hmissing _].
  split; [apply Hmissing; simpl; intros [H | []]; discriminate H |].
  reflexivity.
Defined.

(** ** The data path of [main] *)

Lemma catalog_lower_checked :
  forallb (fun kv => forallb lower_in_range (snd kv)) get_income_groups = true.
Proof. vm_compute. reflexivity. Qed.

Lemma key_groups_lack_cutoff : has_lower_bound key_group_labels 1 = false.
Proof. vm_compute. reflexivity. Qed.

Lemma top_groups_lack_cutoff : has_lower_bound detailed_top_labels 99.9 = false.
Proof. vm_compute. reflexivity. Qed.

Lemma values_at_filter (rows : list NumericRow) (c : float) :
  values_at rows c
  = map num_value (filter (fun r => PrimFloat.eqb (num_percentile r) c) rows).
Proof. unfold values_at. rewrite boolean_index_map. reflexivity. Qed.

Lemma values_at_none (rows : list NumericRow) (c : float) :
  (forall r, In r rows -> PrimFloat.eqb (num_percentile r) c = false) ->
  values_at rows c = [].
Proof.
  intros Hnone. rewrite values_at_filter, filter_none; [reflexivity | exact Hnone].
Qed.

Lemma Forall2_In_right {A B : Type} (R : A -> B -> Prop) (xs : list A) (ys : list B)
    (y : B) :
  Forall2 R xs ys -> In y ys -> exists x, In x xs /\ R x y.
Proof.
  intros H. induction H as [| x0 y0 xs ys Hxy _ IH]; intros Hin; [contradiction Hin |].
  destruct Hin as [<- | Hin].
  - exists x0. split; [left; reflexivity | exact Hxy].
  - destruct (IH Hin) as [x [Hx Hr]]. exists x. split; [right; exact Hx | exact Hr].
Qed.

Lemma lacking_lower_bound (labels : list string) (c : float) (label : string)
    (lower : float) :
  has_lower_bound labels c = false ->
  In label labels -> lower_bound_of label = Some lower ->
  PrimFloat.eqb lower c = false.
Proof.
  intros Hnone Hin Hlow. unfold has_lower_bound in Hnone.
  destruct (PrimFloat.eqb lower c) eqn:Heq; [| reflexivity].
  assert (Hex : existsb (fun label => match lower_bound_of label with
                                      | Some lower => PrimFloat.eqb lower c
                                      | None => false
                                      end) labels = true).
  { apply existsb_exists. exists label. split; [exact Hin |]. rewrite Hlow. exact Heq. }
  rewrite Hex in Hnone. discriminate Hnone.
Qed.

Lemma catalog_label_lower (group_name : string) (labels : list string)
    (label : string) :
  Py.getitem get_income_groups group_name = Ok labels ->
  In label labels -> lower_in_range label = true.
Proof.
  intros Hg Hin. apply getitem_In in Hg.
  pose proof catalog_lower_checked as Hall.
  rewrite forallb_forall in Hall. specialize (Hall _ Hg). cbn [snd] in Hall.
  rewrite forallb_forall in Hall. apply Hall. exact Hin.
Qed.

Lemma filter_data_labelled (df out : list Observation) (variable : string)
    (year : Z) (group_name : string) (labels : list string) :
  Py.getitem get_income_groups group_name = Ok labels ->
  filter_data df variable year group_name = Ok out ->
  Forall (fun o => In o df /\ col_variable o = variable /\ col_year o = year
                   /\ In (col_percentile o) labels) out.
Proof.
  intros Hg Hf. rewrite (filter_data_catalog _ _ _ _ _ Hg) in Hf.
  injection Hf as <-. apply Forall_forall. intros o Ho.
  apply filter_In in Ho. destruct Ho as [Hin Hsel].
  apply selected_iff in Hsel. tauto.
Qed.

Lemma insert_row_permutation (r : NumericRow) (rows : list NumericRow) :
  Permutation (StandinFrame.insert_row r rows) (r :: rows).
Proof.
  induction rows as [| r' rows IH]; cbn [StandinFrame.insert_row]; [reflexivity |].
  destruct (PrimFloat.leb (num_percentile r) (num_percentile r')); [reflexivity |].
  rewrite IH. apply perm_swap.
Qed.

Lemma standin_sort_permutation (rows : list NumericRow) :
  Permutation (StandinFrame.sort_values rows) rows.
Proof.
  induction rows as [| r rows IH]; [reflexivity |].
  unfold StandinFrame.sort_values in *. cbn [fold_right].
  rewrite insert_row_permutation. apply perm_skip. exact IH.
Qed.

Lemma cutoff_labels_checked :
  forallb (fun cl => has_lower_bound cutoff_labels (fst cl)) percentile_cutoffs = true.
Proof. vm_compute. reflexivity. Qed.

Lemma cutoff_labels_detailed :
  forallb (fun label => Py.str_in label detailed_p_labels) cutoff_labels = true.
Proof. vm_compute. reflexivity. Qed.

Lemma values_at_some (rows : list NumericRow) (c : float) (r : NumericRow) :
  In r rows -> PrimFloat.eqb (num_percentile r) c = true ->
  exists v vs, values_at rows c = v :: vs.
Proof.
  intros Hr Heq.
  assert (Hin : In (num_value r) (values_at rows c)).
  { rewrite values_at_filter. apply in_map. apply filter_In. split; assumption. }
  destruct (values_at rows c) as [| v vs]; [contradiction Hin |].
  exists v, vs. reflexivity.
Qed.

Lemma Forall2_In_left {A B : Type} (R : A -> B -> Prop) (xs : list A) (ys : list B)
    (x : A) :
  Forall2 R xs ys -> In x xs -> exists y, In y ys /\ R x y.
Proof.
  intros H. induction H as [| x0 y0 xs ys Hxy _ IH]; intros Hin; [contradiction Hin |].
  destruct Hin as [<- | Hin].
  - exists y0. split; [left; reflexivity | exact Hxy].
  - destruct (IH Hin) as [y [Hy Hr]]. exists y. split; [right; exact Hy | exact Hr].
Qed.

Section MainProperties.

(** Any [float] that reads plain decimal literals as [float_of_decimal]
    does, any table of rates, any [sort_values] that returns the rows of
    its argument in some order, and any Babel. *)
Variable py_float : string -> option float.
Hypothesis py_float_decimal :
  forall s v, Py.float_of_decimal s = Some v -> py_float s = Some v.
Variable exchange_rates : Py.dict float.
Variable sort_values : list NumericRow -> list NumericRow.
Hypothesis sort_values_permutation :
  forall rows, Permutation (sort_values rows) rows.
Variable get_official_languages : string -> list string.
Variable Locale_parse : string -> option string.
Variable format_compact_currency : Z -> string -> string -> string.

Local Abbreviation summary :=
  (prepare_summary_data get_official_languages Locale_parse format_compact_currency).
Local Abbreviation path :=
  (main_data_path py_float exchange_rates sort_values get_official_languages
     Locale_parse format_compact_currency).

Lemma lower_bound_parse (label : string) (lower : float) :
  lower_bound_of label = Some lower ->
  exists rest, parse_percentile py_float label = Ok (lower :: rest).
Proof.
  unfold lower_bound_of. intros H.
  destruct (parse_percentile Py.float_of_decimal label) as [t | e] eqn:Hparse;
    [| discriminate H].
  destruct t as [| lower' rest]; [discriminate H |]. injection H as ->.
  exists rest. apply (parse_percentile_transfer Py.float_of_decimal); assumption.
Qed.

(** The two [apply] steps on rows whose labels have a lower bound. *)
Lemma percentiles_labelled (out : list Observation) :
  Forall (fun o => lower_bound_of (col_percentile o) <> None) out ->
  exists tuples rows,
    percentile_tuples py_float out = Ok tuples
    /\ lower_bounds tuples = Ok rows
    /\ Forall2 (fun o r => lower_bound_of (col_percentile o) = Some (num_percentile r)
                           /\ num_value r = col_value o) out rows.
Proof.
  induction out as [| o out IH]; intros Hall.
  - exists [], []. split; [reflexivity |]. split; [reflexivity | constructor].
  - pose proof (Forall_inv Hall) as Ho. apply Forall_inv_tail in Hall.
    destruct (IH Hall) as [tuples [rows [Ht [Hl Hrows]]]].
    destruct (lower_bound_of (col_percentile o)) as [lower |] eqn:Hlow;
      [| contradiction Ho; reflexivity].
    destruct (lower_bound_parse _ _ Hlow) as [rest Hparse].
    exists ((lower :: rest, col_value o) :: tuples),
           (mkNumericRow lower (col_value o) :: rows).
    split; [| split].
    + unfold percentile_tuples in Ht |- *. cbn [Py.mapM].
      rewrite Hparse. cbn [Py.bind]. rewrite Ht. reflexivity.
    + unfold lower_bounds in Hl |- *. cbn [Py.mapM fst snd Py.first Py.bind].
      rewrite Hl. reflexivity.
    + constructor; [| exact Hrows]. rewrite Hlow. split; reflexivity.
Qed.

Lemma percentiles_after_filter (df out : list Observation) (variable : string)
    (year : Z) (group_name : string) (labels : list string) :
  Py.getitem get_income_groups group_name = Ok labels ->
  filter_data df variable year group_name = Ok out ->
  exists tuples rows,
    percentile_tuples py_float out = Ok tuples
    /\ lower_bounds tuples = Ok rows
    /\ Forall2 (fun o r => lower_bound_of (col_percentile o) = Some (num_percentile r)
                           /\ num_value r = col_value o) out rows.
Proof.
  intros Hg Hf. apply percentiles_labelled.
  apply Forall_impl with (2 := filter_data_labelled _ _ _ _ _ _ Hg Hf).
  intros o (_ & _ & _ & Hlabel).
  pose proof (catalog_label_lower _ _ _ Hg Hlabel) as Hrange.
  unfold lower_in_range in Hrange.
  destruct (lower_bound_of (col_percentile o)); [discriminate | discriminate Hrange].
Qed.

(** After [filter_data] with a group name of the catalog, the two
    [apply] steps of [main] raise nothing: every label of the returned
    frame parses, its tuple has a first element, and the numeric frame
    keeps the values, in the same order, beside lower bounds that lie in
    the range from 0 to 100, 100 left out. *)
Theorem main_percentiles_after_filter (df out : list Observation)
    (variable : string) (year : Z) (group_name : string) (labels : list string) :
  Py.getitem get_income_groups group_name = Ok labels ->
  filter_data df variable year group_name = Ok out ->
  exists tuples rows,
    percentile_tuples py_float out = Ok tuples
    /\ lower_bounds tuples = Ok rows
    /\ map num_value rows = map col_value out
    /\ Forall (fun r => PrimFloat.leb 0 (num_percentile r) = true
                        /\ PrimFloat.ltb (num_percentile r) 100 = true) rows.
Proof.
  intros Hg Hf.
  destruct (percentiles_after_filter _ _ _ _ _ _ Hg Hf) as [tuples [rows [Ht [Hl Hrows]]]].
  pose proof (filter_data_labelled _ _ _ _ _ _ Hg Hf) as Hlabels.
  exists tuples, rows. split; [exact Ht |]. split; [exact Hl |].
  clear Ht Hl Hf. split.
  - induction Hrows as [| o r out rows [_ Hv] _ IH]; [reflexivity |].
    cbn [map]. rewrite Hv, IH; [reflexivity |].
    apply Forall_inv_tail in Hlabels. exact Hlabels.
  - apply Forall_forall. intros r Hr.
    destruct (Forall2_In_right _ _ _ _ Hrows Hr) as [o [Ho [Hlow _]]].
    rewrite Forall_forall in Hlabels. destruct (Hlabels o Ho) as (_ & _ & _ & Hlabel).
    pose proof (catalog_label_lower _ _ _ Hg Hlabel) as Hrange.
    unfold lower_in_range in Hrange. rewrite Hlow in Hrange.
    apply andb_true_iff in Hrange. exact Hrange.
Qed.

End MainProperties.

Section MainSummary.

Variable py_float : string -> option float.
Hypothesis py_float_decimal :
  forall s v, Py.float_of_decimal s = Some v -> py_float s = Some v.
Variable exchange_rates : Py.dict float.
Variable sort_values : list NumericRow -> list NumericRow.
Hypothesis sort_values_permutation :
  forall rows, Permutation (sort_values rows) rows.
Variable get_official_languages : string -> list string.
Variable Locale_parse : string -> option string.
Variable format_compact_currency : Z -> string -> string -> string.

Local Abbreviation summary :=
  (prepare_summary_data get_official_languages Locale_parse format_compact_currency).
Local Abbreviation path :=
  (main_data_path py_float exchange_rates sort_values get_official_languages
     Locale_parse format_compact_currency).

(** [main] once the filter has returned a frame with a row and the two
    [apply] steps have gone through. *)
Lemma main_data_path_after_filter (df : list Observation) (meta : list MetaRow)
    (country_code variable : string) (year : Z) (group_name : string)
    (o : Observation) (out : list Observation)
    (tuples : list (list float * float)) (rows : list NumericRow) :
  filter_data df variable year group_name = Ok (o :: out) ->
  percentile_tuples py_float (o :: out) = Ok tuples ->
  lower_bounds tuples = Ok rows ->
  path df meta country_code variable year group_name
  = (currency <- Py.first (map meta_unit (meta_of meta variable)) ;;
     conversion_rate <- Py.getitem exchange_rates currency ;;
     summary_df <- summary (sort_values rows) (meta_of meta variable) country_code
                     conversion_rate ;;
     Ok (Summarised (sort_values rows) conversion_rate summary_df)).
Proof.
  intros Hf Ht Hl. unfold main_data_path, get_currency_conversion_rate.
  rewrite Hf. cbn [Py.bind List.length Nat.eqb]. rewrite Ht. cbn [Py.bind].
  rewrite Hl. reflexivity.
Qed.

(** The sorted numeric frame holds lower bounds of labels of the group. *)
Lemma sorted_rows_labelled (out : list Observation) (rows : list NumericRow)
    (labels : list string) :
  Forall (fun o => In (col_percentile o) labels) out ->
  Forall2 (fun o r => lower_bound_of (col_percentile o) = Some (num_percentile r)
                      /\ num_value r = col_value o) out rows ->
  forall r, In r (sort_values rows) ->
            exists o, In o out /\ In (col_percentile o) labels
                      /\ lower_bound_of (col_percentile o) = Some (num_percentile r)
                      /\ num_value r = col_value o.
Proof.
  intros Hlabels Hrows r Hr.
  apply (Permutation_in _ (sort_values_permutation rows)) in Hr.
  destruct (Forall2_In_right _ _ _ _ Hrows Hr) as [o [Ho [Hlow Hv]]].
  rewrite Forall_forall in Hlabels.
  exists o. split; [exact Ho |]. split; [apply Hlabels; exact Ho |].
  split; [exact Hlow | exact Hv].
Qed.

Lemma summary_raises_without_cutoff (frame : list NumericRow)
    (var_meta : list MetaRow) (country_code : string) (rate : float)
    (c : float) (l : string) :
  In (c, l) percentile_cutoffs -> values_at frame c = [] ->
  exists e, summary frame var_meta country_code rate = Raise e.
Proof.
  intros Hin Hmiss. unfold prepare_summary_data.
  destruct (Py.first (map meta_unit var_meta)) as [currency | e];
    [| exists e; reflexivity].
  cbn [Py.bind]. apply (summary_loop_missing _ _ _ frame _ _ _ _ _ c l Hin Hmiss).
Qed.

(** A group whose labels lack the lower bound of one cutoff never gets
    to a summary. *)
Lemma path_without_cutoff (df : list Observation) (meta : list MetaRow)
    (country_code variable : string) (year : Z) (group_name : string)
    (labels : list string) (c : float) (l : string)
    (frame : list NumericRow) (rate : float) (summary_df : list SummaryRecord) :
  Py.getitem get_income_groups group_name = Ok labels ->
  In (c, l) percentile_cutoffs -> has_lower_bound labels c = false ->
  path df meta country_code variable year group_name
  <> Ok (Summarised frame rate summary_df).
Proof.
  intros Hg Hin Hlack Hpath.
  destruct (filter_data df variable year group_name) as [out | e] eqn:Hf.
  - destruct out as [| o out].
    + unfold main_data_path in Hpath. rewrite Hf in Hpath. discriminate Hpath.
    + destruct (percentiles_after_filter py_float py_float_decimal _ _ _ _ _ _ Hg Hf)
        as [tuples [rows [Ht [Hl Hrows]]]].
      rewrite (main_data_path_after_filter _ meta country_code _ _ _ _ _ _ _ Hf Ht Hl)
        in Hpath.
      destruct (Py.first (map meta_unit (meta_of meta variable))) as [currency | e];
        [| discriminate Hpath].
      cbn [Py.bind] in Hpath.
      destruct (Py.getitem exchange_rates currency) as [rate' | e];
        [| discriminate Hpath].
      cbn [Py.bind] in Hpath.
      assert (Hmiss : values_at (sort_values rows) c = []).
      { apply values_at_none. intros r Hr.
        assert (Hlabels : Forall (fun o => In (col_percentile o) labels) (o :: out)).
        { apply Forall_impl with (2 := filter_data_labelled _ _ _ _ _ _ Hg Hf).
          intros o' H. apply H. }
        destruct (sorted_rows_labelled _ _ _ Hlabels Hrows r Hr)
          as [o' [_ [Hlabel [Hlow _]]]].
        apply (lacking_lower_bound labels c _ _ Hlack Hlabel Hlow). }
      destruct (summary_raises_without_cutoff (sort_values rows)
                  (meta_of meta variable) country_code rate' c l Hin Hmiss) as [e He].
      rewrite He in Hpath. discriminate Hpath.
  - unfold main_data_path in Hpath. rewrite Hf in Hpath. discriminate Hpath.
Qed.

(** [main] gets to a summary for no group but [detailed_p_groups]: with
    [key_groups] no row starts at the cutoff 1, with
    [detailed_top_groups] none starts at the cutoff 99.9, and another
    group name is no key of the catalog. *)
Theorem main_summary_needs_detailed_p_groups (df : list Observation)
    (meta : list MetaRow) (country_code variable : string) (year : Z)
    (group_name : string) (frame : list NumericRow) (rate : float)
    (summary_df : list SummaryRecord) :
  path df meta country_code variable year group_name
  = Ok (Summarised frame rate summary_df) ->
  group_name = "detailed_p_groups".
Proof.
  intros Hpath.
  destruct (Py.getitem get_income_groups group_name) as [labels | e] eqn:Hg.
  - pose proof (getitem_In _ _ _ Hg) as Hin.
    destruct Hin as [Heq | [Heq | [Heq | []]]].
    + injection Heq as <- <-. exfalso.
      apply (path_without_cutoff df meta country_code variable year "key_groups"
               _ 1 "Bottom 1%" frame rate summary_df Hg); [| | exact Hpath].
      * left. reflexivity.
      * exact key_groups_lack_cutoff.
    + injection Heq as <- _. reflexivity.
    + injection Heq as <- <-. exfalso.
      apply (path_without_cutoff df meta country_code variable year
               "detailed_top_groups" _ 99.9 "Top 0.1%" frame rate summary_df Hg);
        [| | exact Hpath].
      * do 7 right. left. reflexivity.
      * exact top_groups_lack_cutoff.
  - exfalso. unfold main_data_path in Hpath. rewrite filter_data_cases, Hg in Hpath.
    destruct (filter _ df); discriminate Hpath.
Qed.

(** With [key_groups], as soon as the filter returns a row, the metadata
    has a row for the variable and its unit has a rate, [main] raises
    the [IndexError] of the summary's first cutoff: no label of the
    group starts at 1. *)
Theorem main_key_groups_IndexError (df : list Observation) (meta : list MetaRow)
    (country_code variable : string) (year : Z)
    (o : Observation) (out : list Observation) (m : MetaRow) (ms : list MetaRow)
    (rate : float) :
  filter_data df variable year "key_groups" = Ok (o :: out) ->
  meta_of meta variable = m :: ms ->
  Py.getitem exchange_rates (meta_unit m) = Ok rate ->
  path df meta country_code variable year "key_groups" = Raise IndexError.
Proof.
  intros Hf Hmeta Hrate.
  assert (Hg : Py.getitem get_income_groups "key_groups" = Ok key_group_labels)
    by (vm_compute; reflexivity).
  destruct (percentiles_after_filter py_float py_float_decimal _ _ _ _ _ _ Hg Hf)
    as [tuples [rows [Ht [Hl Hrows]]]].
  rewrite (main_data_path_after_filter _ meta country_code _ _ _ _ _ _ _ Hf Ht Hl).
  rewrite Hmeta. cbn [map Py.first Py.bind]. rewrite Hrate. cbn [Py.bind].
  assert (Hmiss : values_at (sort_values rows) 1 = []).
  { apply values_at_none. intros r Hr.
    assert (Hlabels : Forall (fun o => In (col_percentile o) key_group_labels) (o :: out)).
    { apply Forall_impl with (2 := filter_data_labelled _ _ _ _ _ _ Hg Hf).
      intros o' H. apply H. }
    destruct (sorted_rows_labelled _ _ _ Hlabels Hrows r Hr)
      as [o' [_ [Hlabel [Hlow _]]]].
    apply (lacking_lower_bound key_group_labels 1 _ _ key_groups_lack_cutoff Hlabel Hlow). }
  unfold prepare_summary_data. cbn [map Py.first Py.bind].
  unfold percentile_cutoffs. cbn [summary_loop].
  rewrite (summary_record_missing _ _ _ _ _ _ _ _ _ Hmiss). reflexivity.
Qed.

End MainSummary.

Lemma main_percentiles_after_filter_witness :
  exists tuples rows,
    percentile_tuples Py.float_of_decimal
      (filter (selected "aptincj992" 2021 key_group_labels) sample_observations)
    = Ok tuples
    /\ lower_bounds tuples = Ok rows
    /\ map num_value rows
       = map col_value
           (filter (selected "aptincj992" 2021 key_group_labels) sample_observations)
    /\ Forall (fun r => PrimFloat.leb 0 (num_percentile r) = true
                        /\ PrimFloat.ltb (num_percentile r) 100 = true) rows.
Proof.
  apply (main_percentiles_after_filter Py.float_of_decimal (fun s v H => H)
           sample_observations _ "aptincj992" 2021 "key_groups" key_group_labels).
  - reflexivity.
  - vm_compute. reflexivity.
Defined.

Lemma main_key_groups_IndexError_witness :
  main_data_path Py.float_of_decimal StandinFrame.exchange_rates
    StandinFrame.sort_values Standin.get_official_languages Standin.Locale_parse
    Standin.format_compact_currency sample_observations example_meta "IN"
    "aptincj992" 2021 "key_groups"
  = Raise IndexError.
Proof.
  eapply (main_key_groups_IndexError Py.float_of_decimal (fun s v H => H)
            StandinFrame.exchange_rates StandinFrame.sort_values
            standin_sort_permutation Standin.get_official_languages
            Standin.Locale_parse Standin.format_compact_currency
            sample_observations example_meta "IN" "aptincj992" 2021).
  - vm_compute. reflexivity.
  - vm_compute. reflexivity.
  - vm_compute. reflexivity.
Defined.

Lemma main_summary_needs_detailed_p_groups_witness :
  "detailed_p_groups" = "detailed_p_groups".
Proof.
  eapply (main_summary_needs_detailed_p_groups Py.float_of_decimal (fun s v H => H)
            StandinFrame.exchange_rates StandinFrame.sort_values
            standin_sort_permutation Standin.get_official_languages
            Standin.Locale_parse Standin.format_compact_currency
            complete_observations example_meta "IN" "aptincj992" 2021
            "detailed_p_groups").
  vm_compute. reflexivity.
Defined.

Lemma catalog_default_range_checked :
  forallb (fun kv => forallb lower_in_default_range (snd kv)) get_income_groups = true.
Proof. vm_compute. reflexivity. Qed.

Lemma filter_all {A : Type} (p : A -> bool) (l : list A) :
  (forall x, In x l -> p x = true) -> filter p l = l.
Proof.
  induction l as [| x l IH]; intros Hall; [reflexivity |].
  cbn [filter]. rewrite (Hall x (or_introl eq_refl)). f_equal.
  apply IH. intros y Hy. apply Hall. right. exact Hy.
Qed.

Section MainRest.

Variable py_float : string -> option float.
Hypothesis py_float_decimal :
  forall s v, Py.float_of_decimal s = Some v -> py_float s = Some v.
Variable exchange_rates : Py.dict float.
Variable sort_values : list NumericRow -> list NumericRow.
Hypothesis sort_values_permutation :
  forall rows, Permutation (sort_values rows) rows.
Variable get_official_languages : string -> list string.
Variable Locale_parse : string -> option string.
Variable format_compact_currency : Z -> string -> string -> string.

Local Abbreviation path :=
  (main_data_path py_float exchange_rates sort_values get_official_languages
     Locale_parse format_compact_currency).

(** Once the filter has returned a row for a group of the catalog,
    [main] raises [IndexError] when the metadata has no row for the
    variable, and the [KeyError] of [get_currency_conversion_rate] when
    the unit of the variable has no rate. *)
Theorem main_currency_errors (df : list Observation) (meta : list MetaRow)
    (country_code variable : string) (year : Z) (group_name : string)
    (labels : list string) (o : Observation) (out : list Observation) :
  Py.getitem get_income_groups group_name = Ok labels ->
  filter_data df variable year group_name = Ok (o :: out) ->
  (meta_of meta variable = [] ->
   path df meta country_code variable year group_name = Raise IndexError)
  /\ (forall m ms e,
        meta_of meta variable = m :: ms ->
        get_currency_conversion_rate exchange_rates (meta_unit m) = Raise e ->
        e = KeyError
        /\ path df meta country_code variable year group_name = Raise KeyError).
Proof.
  intros Hg Hf.
  destruct (percentiles_after_filter py_float py_float_decimal _ _ _ _ _ _ Hg Hf)
    as [tuples [rows [Ht [Hl _]]]].
  rewrite (main_data_path_after_filter py_float exchange_rates sort_values
             get_official_languages Locale_parse format_compact_currency
             _ meta country_code _ _ _ _ _ _ _ Hf Ht Hl).
  split.
  - intros ->. reflexivity.
  - intros m ms e -> Hrate. unfold get_currency_conversion_rate in Hrate.
    pose proof (getitem_Raise _ _ _ Hrate) as ->.
    split; [reflexivity |]. cbn [map Py.first Py.bind]. rewrite Hrate. reflexivity.
Qed.

(** With the default range of the detailed view, from 0 to 100, no row
    of the sorted numeric frame is left out, whatever the group of the
    catalog. *)
Theorem main_default_range (df out : list Observation) (variable : string)
    (year : Z) (group_name : string) (labels : list string)
    (tuples : list (list float * float)) (rows : list NumericRow) :
  Py.getitem get_income_groups group_name = Ok labels ->
  filter_data df variable year group_name = Ok out ->
  percentile_tuples py_float out = Ok tuples ->
  lower_bounds tuples = Ok rows ->
  detailed_frame (sort_values rows) 0 100 = sort_values rows.
Proof.
  intros Hg Hf Ht Hl.
  destruct (percentiles_after_filter py_float py_float_decimal _ _ _ _ _ _ Hg Hf)
    as [tuples' [rows' [Ht' [Hl' Hrows]]]].
  rewrite Ht in Ht'. injection Ht' as <-. rewrite Hl in Hl'. injection Hl' as <-.
  unfold detailed_frame. rewrite boolean_index_map. apply filter_all.
  intros r Hr.
  assert (Hlabels : Forall (fun o => In (col_percentile o) labels) out).
  { apply Forall_impl with (2 := filter_data_labelled _ _ _ _ _ _ Hg Hf).
    intros o' H. apply H. }
  destruct (sorted_rows_labelled sort_values sort_values_permutation
              _ _ _ Hlabels Hrows r Hr) as [o [_ [Hlabel [Hlow _]]]].
  apply getitem_In in Hg.
  pose proof catalog_default_range_checked as Hall.
  rewrite forallb_forall in Hall. specialize (Hall _ Hg). cbn [snd] in Hall.
  rewrite forallb_forall in Hall. specialize (Hall _ Hlabel).
  unfold lower_in_default_range in Hall. rewrite Hlow in Hall. exact Hall.
Qed.

End MainRest.

Lemma main_currency_errors_witness :
  main_data_path Py.float_of_decimal StandinFrame.exchange_rates
    StandinFrame.sort_values Standin.get_official_languages Standin.Locale_parse
    Standin.format_compact_currency sample_observations [] "IN"
    "aptincj992" 2021 "key_groups"
  = Raise IndexError
  /\ main_data_path Py.float_of_decimal StandinFrame.exchange_rates
       StandinFrame.sort_values Standin.get_official_languages Standin.Locale_parse
       Standin.format_compact_currency sample_observations euro_meta "IN"
       "aptincj992" 2021 "key_groups"
     = Raise KeyError.
Proof.
  split.
  - eapply (proj1 (main_currency_errors Py.float_of_decimal (fun s v H => H)
                     StandinFrame.exchange_rates StandinFrame.sort_values
                     Standin.get_official_languages Standin.Locale_parse
                     Standin.format_compact_currency sample_observations [] "IN"
                     "aptincj992" 2021 "key_groups" key_group_labels _ _
                     eq_refl ltac:(vm_compute; reflexivity))).
    reflexivity.
  - eapply (proj2 (main_currency_errors Py.float_of_decimal (fun s v H => H)
                     StandinFrame.exchange_rates StandinFrame.sort_values
                     Standin.get_official_languages Standin.Locale_parse
                     Standin.format_compact_currency sample_observations euro_meta "IN"
                     "aptincj992" 2021 "key_groups" key_group_labels _ _
                     eq_refl ltac:(vm_compute; reflexivity))).
    + vm_compute. reflexivity.
    + vm_compute. reflexivity.
Defined.

Lemma main_default_range_witness :
  detailed_frame
    (StandinFrame.sort_values
       [ mkNumericRow 0 1200; mkNumericRow 90 9100 ]%float) 0 100
  = StandinFrame.sort_values [ mkNumericRow 0 1200; mkNumericRow 90 9100 ]%float.
Proof.
  eapply (main_default_range Py.float_of_decimal (fun s v H => H)
            StandinFrame.sort_values standin_sort_permutation
            sample_observations _ "aptincj992" 2021 "key_groups" key_group_labels).
  - reflexivity.
  - vm_compute. reflexivity.
  - vm_compute. reflexivity.
  - vm_compute. reflexivity.
Defined.

Section MainCutoffs.

Variable py_float : string -> option float.
Hypothesis py_float_decimal :
  forall s v, Py.float_of_decimal s = Some v -> py_float s = Some v.
Variable sort_values : list NumericRow -> list NumericRow.
Hypothesis sort_values_permutation :
  forall rows, Permutation (sort_values rows) rows.

(** With [detailed_p_groups], when the data set has, for the variable and
    the year, a row for each of the ten labels that start at a cutoff,
    the filter and the two [apply] steps of [main] return, and the
    sorted numeric frame that [main] hands to [prepare_summary_data] has
    a row at every one of the ten cutoffs. *)
Theorem main_detailed_p_groups_cutoffs (df : list Observation) (variable : string)
    (year : Z) :
  (forall label, In label cutoff_labels ->
     exists o, In o df /\ col_variable o = variable /\ col_year o = year
               /\ col_percentile o = label) ->
  exists o out tuples rows,
    filter_data df variable year "detailed_p_groups" = Ok (o :: out)
    /\ percentile_tuples py_float (o :: out) = Ok tuples
    /\ lower_bounds tuples = Ok rows
    /\ forall c l, In (c, l) percentile_cutoffs ->
                   exists v vs, values_at (sort_values rows) c = v :: vs.
Proof.
  intros Hcut.
  assert (Hg : Py.getitem get_income_groups "detailed_p_groups" = Ok detailed_p_labels)
    by (vm_compute; reflexivity).
  pose proof (filter_data_catalog df variable year _ _ Hg) as Hf.
  assert (Hsel : forall label, In label cutoff_labels ->
            exists o, In o (filter (selected variable year detailed_p_labels) df)
                      /\ col_percentile o = label).
  { intros label Hlabel. destruct (Hcut label Hlabel) as (o & Ho & Hv & Hy & Hp).
    exists o. split; [| exact Hp]. apply filter_In. split; [exact Ho |].
    apply selected_iff. split; [exact Hv |]. split; [exact Hy |].
    rewrite Hp. apply str_in_In.
    pose proof cutoff_labels_detailed as Hall. rewrite forallb_forall in Hall.
    apply Hall. exact Hlabel. }
  destruct (filter (selected variable year detailed_p_labels) df) as [| o out] eqn:Hout.
  { destruct (Hsel "p1p2" (or_introl eq_refl)) as [o [Ho _]]. contradiction Ho. }
  destruct (percentiles_after_filter py_float py_float_decimal _ _ _ _ _ _ Hg Hf)
    as [tuples [rows [Ht [Hl Hrows]]]].
  exists o, out, tuples, rows.
  split; [exact Hf |]. split; [exact Ht |]. split; [exact Hl |].
  intros c l Hin.
  pose proof cutoff_labels_checked as Hall. rewrite forallb_forall in Hall.
  specialize (Hall _ Hin). cbn [fst] in Hall. unfold has_lower_bound in Hall.
  apply existsb_exists in Hall. destruct Hall as [label [Hlabel Hlow]].
  destruct (lower_bound_of label) as [lower |] eqn:Hlower; [| discriminate Hlow].
  destruct (Hsel label Hlabel) as [o' [Ho' Hp']].
  destruct (Forall2_In_left _ _ _ _ Hrows Ho') as [r [Hr [Hrlow _]]].
  rewrite Hp', Hlower in Hrlow. injection Hrlow as Hrlow.
  assert (Hsorted : In r (sort_values rows))
    by (apply (Permutation_in _ (Permutation_sym (sort_values_permutation rows)));
        exact Hr).
  assert (Heq : PrimFloat.eqb (num_percentile r) c = true)
    by (rewrite <- Hrlow; exact Hlow).
  apply (values_at_some _ _ _ Hsorted Heq).
Qed.

End MainCutoffs.

Lemma complete_observations_cutoffs (label : string) :
  In label cutoff_labels ->
  exists o, In o complete_observations /\ col_variable o = "aptincj992"
            /\ col_year o = 2021 /\ col_percentile o = label.
Proof.
  intros Hlabel. simpl in Hlabel.
  repeat (destruct Hlabel as [<- | Hlabel];
          [match goal with
           | |- exists o, _ /\ _ /\ _ /\ col_percentile o = ?l =>
               let o := eval vm_compute in
                 (hd (mkObservation "" 0 "" 0)
                     (filter (fun o => String.eqb (col_percentile o) l)
                             complete_observations)) in
               exists o
           end;
           split; [simpl; auto 20 | repeat split] |]).
  contradiction Hlabel.
Qed.

Lemma main_detailed_p_groups_cutoffs_witness :
  exists o out tuples rows,
    filter_data complete_observations "aptincj992" 2021 "detailed_p_groups"
    = Ok (o :: out)
    /\ percentile_tuples Py.float_of_decimal (o :: out) = Ok tuples
    /\ lower_bounds tuples = Ok rows
    /\ forall c l, In (c, l) percentile_cutoffs ->
                   exists v vs, values_at (StandinFrame.sort_values rows) c = v :: vs.
Proof.
  apply (main_detailed_p_groups_cutoffs Py.float_of_decimal (fun s v H => H)
           StandinFrame.sort_values standin_sort_permutation
           complete_observations "aptincj992" 2021).
  exact complete_observations_cutoffs.
Defined.
